(** * temp_portal: reservation storage and HTTP handlers

    A shallow embedding of the Go sources
      - internal/storage/postgres/entities/reservation/reservation.go
        (the statements and the functions that send them),
      - internal/http-server/handlers/me/me.go,
      - the handlers of packages deleteItem and logIn,
    together with the part of PostgreSQL's semantics that the SQL statements
    of package [reservation] rely on.  The packages the handlers import
    from the rest of the repository (response, oauth, roles, shop, entities,
    jwt) are not among the sources; what stands for them is said where it is
    introduced.

    Conventions.
      - A Go [int] is a [Z]; a Go [string] is a [string]; a Go [error] is an
        [option string] holding the text [err.Error()] ([None] is [nil]).
      - A SQL [timestamp] is a [Z]: microseconds since the Unix epoch, the
        resolution PostgreSQL stores.
      - The database is explicit state.  A statement is either refused by the
        driver (the [err != nil] branches of the Go code) or evaluated on the
        tables. *)

From stdpp Require Import base decidable option list sorting gmap strings.
From Stdlib Require Import ZArith Lia.

Local Open Scope Z_scope.

(** A Go [error]: [nil] or the text of the error. *)
Definition error := option string.

(** [fmt.Errorf("%s: %w", op, err)] and [fmt.Errorf("%s: <text>", op)]:
    the operation tag, a colon and a blank, then the wrapped text. *)
Definition Errorf (op text : string) : string := op +:+ ": " +:+ text.

(* ===================================================================== *)
(** ** PostgreSQL values and the OVERLAPS operator *)
(* ===================================================================== *)

Module pg.

Definition Timestamp := Z.

(** [TIMESTAMP '0001-01-01 00:00:00'], the literal of [qrGetActualPlaces]:
    62135596800 seconds before the Unix epoch. *)
Definition ts_0001_01_01 : Timestamp := -62135596800000000.

(** OVERLAPS takes the earlier value of each pair as its start. *)
Definition ordered (ts te : Timestamp) : Timestamp * Timestamp :=
  if ts >? te then (te, ts) else (ts, te).

(** [(ts1, te1) OVERLAPS (ts2, te2)] on non-null timestamps, as the server
    evaluates it: both pairs are ordered, then the later start must lie
    strictly before the other pair's end; two pairs that start together
    always overlap. *)
Definition OVERLAPS (ts1 te1 ts2 te2 : Timestamp) : bool :=
  let '(ts1, te1) := ordered ts1 te1 in
  let '(ts2, te2) := ordered ts2 te2 in
  if ts1 >? ts2 then ts1 <? te2
  else if ts1 <? ts2 then ts2 <? te1
  else true.

(** [COALESCE(x, d)]. *)
Definition COALESCE {A} (x : option A) (d : A) : A := default d x.

End pg.

(* ===================================================================== *)
(** ** Tables *)
(* ===================================================================== *)

Module schema.

(** Table [place]; the statements read [place_id], [name] and the nullable
    [phone]. *)
Module place.
Record row := mk {
  place_id : Z;
  name : string;
  phone : option string;
}.
End place.

(** Table [reservation]. *)
Module reservation.
Record row := mk {
  reservation_id : Z;
  place_id : Z;
  start : pg.Timestamp;
  finish : pg.Timestamp;
  user_id : Z;
}.
End reservation.

(** The database: the two tables and the sequence that numbers new
    reservations ([qrInsertReservation] supplies no [reservation_id]). *)
Record Database := mkDatabase {
  place_tbl : list place.row;
  reservation_tbl : list reservation.row;
  reservation_id_seq : Z;
}.

(** Modelled from the spec: the view [place_and_reservation] is not among the
    sources.  The availability query (spec 4.1) reads from it "all places
    with a reservation overlapping the interval" together with "that
    reservation's user_id/start/finish": each place joined with each of its
    reservations. *)
Definition place_and_reservation (db : Database)
  : list (place.row * reservation.row) :=
  p ← place_tbl db;
  r ← filter (λ r, reservation.place_id r = place.place_id p) (reservation_tbl db);
  [(p, r)].

End schema.

#[global] Instance place_row_eq_dec : EqDecision schema.place.row.
Proof. solve_decision. Defined.
#[global] Instance reservation_row_eq_dec : EqDecision schema.reservation.row.
Proof. solve_decision. Defined.

(* ===================================================================== *)
(** ** The database handle *)
(* ===================================================================== *)

Module postgres.

(** The statements of package [reservation] (its [const] block), by name. *)
Inductive Stmt :=
  | qrGetActualPlaces
  | qrGetReservationsByUserID
  | qrGetUserReservationInDateRange
  | qrGetIsPlaceAvailable
  | qrGetNameByPlaceID
  | qrInsertReservation
  | qrUpdateReservation
  | qrDeleteReservation.

(** [postgres.Storage]: the handle [DB] with the tables behind it.
    [refuses q] is what the driver answers when statement [q] is sent:
    [Some e] makes [DB.Query] / [DB.Exec] return the error [e] and leaves the
    tables alone (connection loss, a value the server cannot read, a violated
    constraint); [None] lets the statement run.  An error is a refusal before
    the statement has run: an error that reaches the caller after the server
    has applied the statement is not part of this model. *)
Record Storage := mkStorage {
  DB : schema.Database;
  refuses : Stmt -> error;
}.

(** [storage.DB.Query(q, args...)]: the rows of [q], unless the driver
    refuses. *)
Definition Query {Row} (storage : Storage) (q : Stmt) (rows : list Row)
  : list Row + string :=
  match refuses storage q with
  | Some err => inr err
  | None => inl rows
  end.

(** [storage.DB.Exec(q, args...)]: the tables after [q], unless the driver
    refuses. *)
Definition Exec (storage : Storage) (q : Stmt) (after : schema.Database)
  : Storage + string :=
  match refuses storage q with
  | Some err => inr err
  | None => inl (mkStorage after (refuses storage))
  end.

(** A driver that refuses nothing. *)
Definition healthy (storage : Storage) : Prop :=
  forall q, refuses storage q = None.

End postgres.

(* ===================================================================== *)
(** ** What the statements compute *)
(* ===================================================================== *)

Module sql.
Import schema.

(** The seven result columns of [qrGetActualPlaces]. *)
Module actual.
Record row := mk {
  place_id : Z;
  name : string;
  phone : string;
  is_available : bool;
  user_id : Z;
  start : pg.Timestamp;
  finish : pg.Timestamp;
}.
End actual.

#[global] Instance actual_row_eq_dec : EqDecision actual.row.
Proof. solve_decision. Defined.

(** [WHERE ($1, $2) OVERLAPS ("start", finish)] over the view. *)
Definition where_actual (q_start q_finish : pg.Timestamp)
    (pr : place.row * reservation.row) : Prop :=
  pg.OVERLAPS q_start q_finish
    (reservation.start pr.2) (reservation.finish pr.2) = true.

(** [WHERE place_id = $1 AND (start, finish) OVERLAPS ($2, $3)]. *)
Definition where_place_taken (placeID : Z) (q_start q_finish : pg.Timestamp)
    (r : reservation.row) : Prop :=
  reservation.place_id r = placeID /\
  pg.OVERLAPS (reservation.start r) (reservation.finish r) q_start q_finish = true.

(** [WHERE user_id = $1 AND (start, finish) OVERLAPS ($2, $3)]. *)
Definition where_user_in_range (userID : Z) (q_start q_finish : pg.Timestamp)
    (r : reservation.row) : Prop :=
  reservation.user_id r = userID /\
  pg.OVERLAPS (reservation.start r) (reservation.finish r) q_start q_finish = true.

#[global] Instance where_actual_dec s f pr : Decision (where_actual s f pr).
Proof. unfold where_actual. apply _. Defined.
#[global] Instance where_place_taken_dec p s f r :
  Decision (where_place_taken p s f r).
Proof. unfold where_place_taken. apply _. Defined.
#[global] Instance where_user_in_range_dec u s f r :
  Decision (where_user_in_range u s f r).
Proof. unfold where_user_in_range. apply _. Defined.

(** [SELECT place_id, "name", COALESCE(phone, ''), true, 0,
    TIMESTAMP '0001-01-01 00:00:00', TIMESTAMP '0001-01-01 00:00:00'] *)
Definition as_available (p : place.row) : actual.row :=
  actual.mk (place.place_id p) (place.name p) (pg.COALESCE (place.phone p) "")
            true 0 pg.ts_0001_01_01 pg.ts_0001_01_01.

(** [SELECT place_id, "name", COALESCE(phone, ''), false, user_id, "start",
    finish] *)
Definition as_taken (pr : place.row * reservation.row) : actual.row :=
  actual.mk (place.place_id pr.1) (place.name pr.1)
            (pg.COALESCE (place.phone pr.1) "")
            false (reservation.user_id pr.2)
            (reservation.start pr.2) (reservation.finish pr.2).

(** [A EXCEPT B] and [A UNION B]: set operations, duplicates removed. *)
Definition EXCEPT (A B : list actual.row) : list actual.row :=
  list_difference (remove_dups A) B.
Definition UNION (A B : list actual.row) : list actual.row :=
  list_union (remove_dups A) (remove_dups B).

(** [ORDER BY place_id]. *)
Definition by_place_id (a b : actual.row) : Prop :=
  actual.place_id a <= actual.place_id b.
#[global] Instance by_place_id_dec : RelDecision by_place_id.
Proof. intros a b. unfold by_place_id. apply _. Defined.

(** [qrGetActualPlaces]:
    (every place as available EXCEPT the places of the overlapping view rows
    as available) UNION (the overlapping view rows as taken), ordered. *)
Definition GetActualPlaces (db : Database) (q_start q_finish : pg.Timestamp)
  : list actual.row :=
  let overlapping :=
    filter (where_actual q_start q_finish) (place_and_reservation db) in
  merge_sort by_place_id
    (UNION (EXCEPT (as_available <$> place_tbl db)
                   (remove_dups ((λ pr, as_available pr.1) <$> overlapping)))
           (remove_dups (as_taken <$> overlapping))).

(** [ORDER BY start DESC]. *)
Definition by_start_desc (a b : reservation.row) : Prop :=
  reservation.start b <= reservation.start a.
#[global] Instance by_start_desc_dec : RelDecision by_start_desc.
Proof. intros a b. unfold by_start_desc. apply _. Defined.

(** [qrGetReservationsByUserID]: the four selected columns of the user's
    rows, latest start first. *)
Definition GetReservationsByUserID (db : Database) (userID : Z)
  : list (Z * Z * pg.Timestamp * pg.Timestamp) :=
  (λ r, (reservation.reservation_id r, reservation.place_id r,
         reservation.start r, reservation.finish r))
  <$> merge_sort by_start_desc
        (filter (λ r, reservation.user_id r = userID) (reservation_tbl db)).

(** [qrGetUserReservationInDateRange]. *)
Definition GetUserReservationInDateRange (db : Database) (userID : Z)
    (q_start q_finish : pg.Timestamp) : list Z :=
  reservation.reservation_id
  <$> filter (where_user_in_range userID q_start q_finish) (reservation_tbl db).

(** [qrGetIsPlaceAvailable]. *)
Definition GetIsPlaceAvailable (db : Database) (placeID : Z)
    (q_start q_finish : pg.Timestamp) : list Z :=
  reservation.reservation_id
  <$> filter (where_place_taken placeID q_start q_finish) (reservation_tbl db).

(** [qrInsertReservation]: [VALUES ($1, $3, $4, $2)] into
    [(place_id, start, finish, user_id)]; the sequence numbers the row. *)
Definition InsertReservation (db : Database) (a1 a2 : Z) (a3 a4 : pg.Timestamp)
  : Database :=
  mkDatabase (place_tbl db)
    (reservation_tbl db ++
       [reservation.mk (reservation_id_seq db) a1 a3 a4 a2])
    (reservation_id_seq db + 1).

(** [qrUpdateReservation]: [SET place_id = $2, start = $3, finish = $4
    WHERE reservation_id = $1]. *)
Definition set_reservation (a2 : Z) (a3 a4 : pg.Timestamp) (a1 : Z)
    (r : reservation.row) : reservation.row :=
  if decide (reservation.reservation_id r = a1)
  then reservation.mk (reservation.reservation_id r) a2 a3 a4
                      (reservation.user_id r)
  else r.

Definition UpdateReservation (db : Database) (a1 a2 : Z) (a3 a4 : pg.Timestamp)
  : Database :=
  mkDatabase (place_tbl db)
    (set_reservation a2 a3 a4 a1 <$> reservation_tbl db)
    (reservation_id_seq db).

(** [qrDeleteReservation]: [DELETE ... WHERE reservation_id = $1]. *)
Definition DeleteReservation (db : Database) (a1 : Z) : Database :=
  mkDatabase (place_tbl db)
    (filter (λ r, reservation.reservation_id r <> a1) (reservation_tbl db))
    (reservation_id_seq db).

(** [qrGetNameByPlaceID]: [SELECT name FROM place WHERE place_id = $1]. *)
Definition GetNameByPlaceID (db : Database) (placeID : Z) : list string :=
  place.name <$> filter (λ p, place.place_id p = placeID) (place_tbl db).

End sql.

(* ===================================================================== *)
(** ** Package reservation *)
(* ===================================================================== *)

Module reservation.
Import postgres.

(** [time.Time.UnixMilli] of a scanned timestamp: whole milliseconds,
    rounded down. *)
Definition UnixMilli (t : pg.Timestamp) : Z := t / 1000.

Module Place.
Record t := mk {
  PlaceID : Z;
  Name : string;
  Phone : string;
  Internet : string;
  SecondScreen : string;
}.
End Place.

Module ActualPlace.
Record t := mk {
  Place : Place.t;
  IsAvailable : bool;
  UserID : Z;
  Start : Z;
  Finish : Z;
}.
Definition PlaceID (ap : t) : Z := Place.PlaceID (Place ap).
End ActualPlace.

Module Reservation.
Record t := mk {
  ReservationID : Z;
  PlaceID : Z;
  Start : pg.Timestamp;
  Finish : pg.Timestamp;
  UserID : Z;
}.
End Reservation.

(** The body of the loop of [GetActualPlaces]: [var ap ActualPlace], [Scan]
    into [PlaceID], [Name], [Phone], [IsAvailable], [UserID] and the two raw
    times, which are stored as Unix milliseconds. *)
Definition scan_actual (row : sql.actual.row) : ActualPlace.t :=
  ActualPlace.mk
    (Place.mk (sql.actual.place_id row) (sql.actual.name row)
              (sql.actual.phone row) "" "")
    (sql.actual.is_available row)
    (sql.actual.user_id row)
    (UnixMilli (sql.actual.start row))
    (UnixMilli (sql.actual.finish row)).

Definition GetActualPlaces (storage : Storage) (properties : string)
    (start finish : pg.Timestamp) : list ActualPlace.t * error :=
  let op := "storage.postgres.entities.reservation.GetActualPlaces" in
  match Query storage qrGetActualPlaces
              (sql.GetActualPlaces (DB storage) start finish) with
  | inr err => ([], Some (Errorf op err))
  | inl qrResult => (scan_actual <$> qrResult, None)
  end.

(** [start] and [finish] arrive as text and are read by the server; they are
    given here as the timestamps the text denotes (text the server cannot
    read makes the driver refuse the statement). *)
Definition HasUserReservationInDateRange (storage : Storage) (userID : Z)
    (start finish : pg.Timestamp) : bool * error :=
  let op :=
    "storage.postgres.entities.reservation.HasUserReservationInDateRange" in
  match Query storage qrGetUserReservationInDateRange
              (sql.GetUserReservationInDateRange (DB storage) userID start finish)
  with
  | inr err => (false, Some (Errorf op err))
  | inl [] => (false, None)
  | inl (_ :: _) => (true, None)
  end.

Definition InsertReservation (storage : Storage) (placeID userID : Z)
    (start finish : pg.Timestamp) : Storage * error :=
  let op := "storage.postgres.entities.reservation.InsertReservation" in
  match Query storage qrGetIsPlaceAvailable
              (sql.GetIsPlaceAvailable (DB storage) placeID start finish) with
  | inr err => (storage, Some (Errorf op err))
  | inl (_ :: _) => (storage, Some (Errorf op "place is already taken"))
  | inl [] =>
      match Exec storage qrInsertReservation
                 (sql.InsertReservation (DB storage) placeID userID start finish)
      with
      | inr err => (storage, Some (Errorf op err))
      | inl storage' => (storage', None)
      end
  end.

Definition UpdateReservation (storage : Storage) (reservationID placeID : Z)
    (start finish : pg.Timestamp) : Storage * error :=
  let op := "storage.postgres.entities.reservation.UpdateReservation" in
  match Exec storage qrUpdateReservation
             (sql.UpdateReservation (DB storage) reservationID placeID start finish)
  with
  | inr err => (storage, Some (Errorf op err))
  | inl storage' => (storage', None)
  end.

Definition DeleteReservation (storage : Storage) (reservationID : Z)
  : Storage * error :=
  let op := "storage.postgres.entities.reservation.DeleteReservation" in
  match Exec storage qrDeleteReservation
             (sql.DeleteReservation (DB storage) reservationID) with
  | inr err => (storage, Some (Errorf op err))
  | inl storage' => (storage', None)
  end.

(** The body of the loop of [GetReservationsByUserID]: [var r Reservation],
    [Scan] into [ReservationID], [PlaceID], [Start], [Finish]; [UserID] keeps
    its zero value. *)
Definition scan_reservation (row : Z * Z * pg.Timestamp * pg.Timestamp)
  : Reservation.t :=
  let '(reservation_id, place_id, start, finish) := row in
  Reservation.mk reservation_id place_id start finish 0.

Definition GetReservationsByUserID (storage : Storage) (userID : Z)
  : list Reservation.t * error :=
  let op := "storage.postgres.entities.reservation.GetReservationsByUserID" in
  match Query storage qrGetReservationsByUserID
              (sql.GetReservationsByUserID (DB storage) userID) with
  | inr err => ([], Some (Errorf op err))
  | inl qrResult => (scan_reservation <$> qrResult, None)
  end.

(** [p.Name = name] on the receiver of [GetPlaceName]. *)
Definition set_Name (p : Place.t) (name : string) : Place.t :=
  Place.mk (Place.PlaceID p) name (Place.Phone p) (Place.Internet p)
           (Place.SecondScreen p).

(** [GetPlaceName] scans every row of the answer into [p.Name], one after
    the other; the receiver is given and handed back. *)
Definition GetPlaceName (p : Place.t) (storage : Storage) (placeID : Z)
  : Place.t * error :=
  let op := "storage.postgres.entities.reservation.GetPlaceName" in
  match Query storage qrGetNameByPlaceID
              (sql.GetNameByPlaceID (DB storage) placeID) with
  | inr err => (p, Some (Errorf op err))
  | inl qrResult => (foldl set_Name p qrResult, None)
  end.

End reservation.

#[global] Instance Place_eq_dec : EqDecision reservation.Place.t.
Proof. solve_decision. Defined.
#[global] Instance ActualPlace_eq_dec : EqDecision reservation.ActualPlace.t.
Proof. solve_decision. Defined.
#[global] Instance Reservation_eq_dec : EqDecision reservation.Reservation.t.
Proof. solve_decision. Defined.

(* ===================================================================== *)
(** ** HTTP handlers: what a run of a handler does *)
(* ===================================================================== *)

(** Modelled from the spec: package [response] (imported as [resp]) is not
    among the sources.  Spec 6: every body is [{status: "OK"|"Error",
    error?: string}]; the three constructors are the three functions the
    handlers call, [resp.OK()], [resp.Error(msg)] and
    [resp.ValidationError(errs)], the last one kept with the fields that
    failed. *)
Module resp.
Inductive Response :=
  | OK
  | Error (msg : string)
  | ValidationError (failed : list string).

Definition status (r : Response) : string :=
  match r with OK => "OK" | _ => "Error" end.
End resp.

Module http.

(** Endpoint-specific fields of a body: numbers, strings, and objects of
    such. *)
Inductive scalar :=
  | JInt (n : Z)
  | JString (s : string).
Inductive json :=
  | JScalar (v : scalar)
  | JObject (fields : list (string * scalar)).

(** A JSON body: the envelope merged with endpoint-specific fields. *)
Record Body := mkBody {
  envelope : resp.Response;
  fields : list (string * json);
}.

(** The calls a handler makes to the entities and to the token issuer. *)
Inductive DomainCall :=
  | DeleteItem (itemID : Z)
  | UserAuth (login password : string)
  | JwtNew.

(** What a handler does that can be seen from outside, in order.  A log
    record is kept by its message (the attributes [sl.Err(err)] and
    [slog.Any] go to the log only). *)
Inductive Event :=
  | LogError (msg : string)
  | LogInfo (msg : string)
  | WriteHeader (code : Z)
  | Write (body : Body)
  | Stdout (text : string)
  | Call (c : DomainCall).

(** A handler returns, or panics (a failed single-value type assertion, a
    method call on a nil error). *)
Inductive Outcome := Returned | Panicked.

Record Run := mkRun {
  events : list Event;
  outcome : Outcome;
}.

Definition ret : Run := mkRun [] Returned.
Definition panic : Run := mkRun [] Panicked.
Definition emit (e : Event) (k : Run) : Run :=
  mkRun (e :: events k) (outcome k).

(** [render.JSON(w, r, v)] for a bare envelope. *)
Definition render_JSON (r : resp.Response) : Event := Write (mkBody r []).

(** The status line the client receives: the code of the first
    [WriteHeader] if it comes before the body, 200 if the body is written
    first, none if nothing is written. *)
Fixpoint status_code (evs : list Event) : option Z :=
  match evs with
  | [] => None
  | WriteHeader code :: _ => Some code
  | Write _ :: _ => Some 200
  | _ :: evs => status_code evs
  end.

(** The first body written. *)
Fixpoint body_written (evs : list Event) : option Body :=
  match evs with
  | [] => None
  | Write b :: _ => Some b
  | _ :: evs => body_written evs
  end.

(** The domain calls of a run, in order. *)
Definition calls (evs : list Event) : list DomainCall :=
  omap (λ e, match e with Call c => Some c | _ => None end) evs.

(** What the text stream [os.Stdout] receives. *)
Definition stdout (evs : list Event) : list string :=
  omap (λ e, match e with Stdout s => Some s | _ => None end) evs.

(** [render.DecodeJSON(r.Body, &req)]: [io.EOF] on an empty body, another
    error on a body that is not JSON for [req], else the decoded request. *)
Inductive Decoded (Request : Type) :=
  | EOF
  | Malformed (err : string)
  | Filled (req : Request).
Arguments EOF {Request}.
Arguments Malformed {Request} err.
Arguments Filled {Request} req.

(** A value held by the request context, [any] in Go: absent ([nil]) or a
    value of one of the dynamic types the middleware stores. *)
Inductive any :=
  | nil
  | of_int (n : Z)
  | of_string (s : string)
  | of_claims (m : gmap string Z).

(** The single-value assertions [v.(int)], [v.(string)] and
    [v.(map[string]int)]; [None] stands for the panic. *)
Definition as_int (v : any) : option Z :=
  match v with of_int n => Some n | _ => None end.
Definition as_string (v : any) : option string :=
  match v with of_string s => Some s | _ => None end.
Definition as_claims (v : any) : option (gmap string Z) :=
  match v with of_claims m => Some m | _ => None end.

End http.

Notation "e +> k" := (http.emit e k) (at level 65, right associativity).

(** The context keys of package [oauth] under which the token middleware
    files the caller's claims, credential and scope. *)
Module oauth.
Inductive key := ClaimsContext | CredentialContext | ScopeContext.
End oauth.

(** [r.Context()]: [ctx k] is [r.Context().Value(k)]. *)
Definition Context := oauth.key -> http.any.

(* --------------------------------------------------------------------- *)
(** *** Package me *)
(* --------------------------------------------------------------------- *)

Module me.
Import http.

Record User := mkUser {
  UserID : Z;
  Username : string;
  Role : Z;
}.

(** [Response{Response: resp.OK(), User: user}] with its json tags. *)
Definition Response (r : resp.Response) (user : User) : Body :=
  mkBody r [("user", JObject [("user_id", JInt (UserID user));
                              ("username", JString (Username user));
                              ("role", JInt (Role user))])].

(** [json.Marshal] of a struct of ints and strings: it has no failing
    case. *)
Definition Marshal (b : Body) : Body + string := inl b.

Definition responseOK (user : User) : Run :=
  match Marshal (Response resp.OK user) with
  | inr err =>
      LogError "failed to process response" +>
      WriteHeader 500 +>
      render_JSON (resp.Error "failed to process response") +>
      ret
  | inl response => Write response +> ret
  end.

Definition New (ctx : Context) : Run :=
  match as_claims (ctx oauth.ClaimsContext) with
  | None => panic
  | Some tempUserID =>
      match tempUserID !! "user_id" with
      | None =>
          LogError "no user id in token claims" +>
          WriteHeader 500 +>
          render_JSON (resp.Error "no user id in token claims") +>
          ret
      | Some userID =>
          match as_string (ctx oauth.CredentialContext) with
          | None => panic
          | Some username =>
              if decide (username = "") then
                LogError "no username in token" +>
                WriteHeader 500 +>
                render_JSON (resp.Error "no username in token") +>
                ret
              else
                match as_int (ctx oauth.ScopeContext) with
                | None => panic
                | Some userRole =>
                    if decide (userRole = 0) then
                      LogError "no user role in token" +>
                      WriteHeader 500 +>
                      render_JSON (resp.Error "no user role in token") +>
                      ret
                    else responseOK (mkUser userID username userRole)
                end
          end
      end
  end.

End me.

(* --------------------------------------------------------------------- *)
(** *** Package deleteItem *)
(* --------------------------------------------------------------------- *)

Module deleteItem.
Import http.

Record Request := mkRequest {
  ItemID : Z;
}.

(** [validator.New().Struct(req)]: [ItemID] is tagged [required], which an
    [int] fails exactly when it is zero.  The fields that failed. *)
Definition validate (req : Request) : list string :=
  if decide (ItemID req = 0) then ["ItemID"] else [].

Section Handler.

(** [roles.ShopEditor] and [roles.SuperAdmin]: package [roles] is not among
    the sources, so the two constants are left open. *)
Variables ShopEditor SuperAdmin : Z.

(** [shop.Item.DeleteItem(storage, itemID)]: package [shop] is not among the
    sources; the entity operation is any function of the storage and the
    item. *)
Variable DeleteItem : postgres.Storage -> Z -> postgres.Storage * error.

Definition New (ctx : Context) (body : Decoded Request)
    (storage : postgres.Storage) : Run * postgres.Storage :=
  let allowedRoles := [ShopEditor; SuperAdmin] in
  match as_int (ctx oauth.ScopeContext) with
  | None => (panic, storage)
  | Some role =>
      if decide (role = 0) then
        (LogError "no user role in token" +>
         WriteHeader 500 +>
         render_JSON (resp.Error "no user role in token") +>
         ret, storage)
      else if negb (bool_decide (role ∈ allowedRoles)) then
        (LogError "access was denied" +>
         WriteHeader 403 +>
         render_JSON (resp.Error "access was denied") +>
         ret, storage)
      else
        match body with
        | EOF =>
            (LogError "request body is empty" +>
             WriteHeader 400 +>
             render_JSON (resp.Error "empty request") +>
             ret, storage)
        | Malformed err =>
            (LogError "failed to decode request body" +>
             WriteHeader 400 +>
             render_JSON (resp.Error "failed to decode request") +>
             ret, storage)
        | Filled req =>
            match validate req with
            | (_ :: _) as failed =>
                (LogInfo "request body decoded" +>
                 LogError "invalid request" +>
                 WriteHeader 400 +>
                 render_JSON (resp.ValidationError failed) +>
                 ret, storage)
            | [] =>
                match DeleteItem storage (ItemID req) with
                | (storage', Some err) =>
                    (LogInfo "request body decoded" +>
                     Call (http.DeleteItem (ItemID req)) +>
                     LogError "failed to delete item from shop" +>
                     WriteHeader 422 +>
                     render_JSON (resp.Error "failed to delete item from shop") +>
                     ret, storage')
                | (storage', None) =>
                    (LogInfo "request body decoded" +>
                     Call (http.DeleteItem (ItemID req)) +>
                     LogInfo "item successfully deleted from shop" +>
                     render_JSON resp.OK +>
                     ret, storage')
                end
            end
        end
  end.

End Handler.
End deleteItem.

(* --------------------------------------------------------------------- *)
(** *** Package logIn *)
(* --------------------------------------------------------------------- *)

Module logIn.
Import http.

Record Request := mkRequest {
  Login : string;
  Password : string;
}.

(** [validator.New().Struct(req)]: both fields are tagged [required], which
    a [string] fails exactly when it is empty.  The fields that failed. *)
Definition validate (req : Request) : list string :=
  (if decide (Login req = "") then ["Login"] else []) ++
  (if decide (Password req = "") then ["Password"] else []).

(** [Response{Response: resp.OK(), Token: token}] with its json tag. *)
Definition Response (r : resp.Response) (token : string) : Body :=
  mkBody r [("token", JScalar (JString token))].

Definition responseOK (token : string) : Run :=
  Write (Response resp.OK token) +> ret.

Section Handler.

(** [entities.User.UserAuth(storage, login, password)]: package [entities]
    is not among the sources; the credential check is any function that
    answers with a status and an error. *)
Variable UserAuth : postgres.Storage -> string -> string -> bool * error.

(** [jwt.New(tokenAuth)]: the token issuer is not among the sources; what
    it answers in this run, a token and an error. *)
Variable jwt_New : string * error.

Definition New (body : Decoded Request) (storage : postgres.Storage) : Run :=
  match body with
  | EOF =>
      LogError "request body is empty" +>
      WriteHeader 400 +>
      render_JSON (resp.Error "empty request") +>
      ret
  | Malformed err =>
      LogError "failed to decode request body" +>
      WriteHeader 400 +>
      render_JSON (resp.Error "failed to decode request") +>
      ret
  | Filled req =>
      LogInfo "request body decoded" +>
      match validate req with
      | (_ :: _) as failed =>
          WriteHeader 400 +>
          LogError "invalid request" +>
          render_JSON (resp.ValidationError failed) +>
          ret
      | [] =>
          Stdout (Password req) +>
          Call (http.UserAuth (Login req) (Password req)) +>
          match UserAuth storage (Login req) (Password req) with
          | (false, err) =>
              WriteHeader 400 +>
              match err with
              | None => panic
              | Some text => render_JSON (resp.Error text) +> ret
              end
          | (true, _) =>
              Call JwtNew +>
              responseOK jwt_New.1
          end
      end
  end.

End Handler.
End logIn.

(* --------------------------------------------------------------------- *)
(** *** Package get_reservation_list *)
(* --------------------------------------------------------------------- *)

Module get_reservation_list.
Import http.

(** [Response{Response: resp.OK(), ShopList: shopList}] with its json tag. *)
Definition Response (r : resp.Response) (shopList : string) : Body :=
  mkBody r [("shop_list", JScalar (JString shopList))].

Definition responseOK (shopList : string) : Run :=
  Write (Response resp.OK shopList) +> ret.

Section Handler.

(** [entities.Place.GetActualPlaceList(storage)]: package [entities] is not
    among the sources; the entity operation is any function of the storage
    that answers with a text and an error. *)
Variable GetActualPlaceList : postgres.Storage -> string * error.

Definition New (storage : postgres.Storage) : Run :=
  match GetActualPlaceList storage with
  | (_, Some err) =>
      LogError "failed to get shop list" +>
      WriteHeader 422 +>
      render_JSON (resp.Error "failed to get shop list") +>
      ret
  | (placeList, None) =>
      LogInfo "shop list gotten" +>
      responseOK placeList
  end.

End Handler.
End get_reservation_list.

(* ===================================================================== *)
(** ** Vocabulary of the properties *)
(* ===================================================================== *)

(** Two intervals of which neither ends at or before the start of the
    other. *)
Definition neither_ends_before (s1 e1 s2 e2 : pg.Timestamp) : Prop :=
  ¬ (e1 <= s2) /\ ¬ (e2 <= s1).

(** The entry of [GetActualPlaces] for a free place: no user, and both times
    the Unix milliseconds of 0001-01-01 00:00:00. *)
Definition free_place (p : schema.place.row) : reservation.ActualPlace.t :=
  reservation.ActualPlace.mk
    (reservation.Place.mk (schema.place.place_id p) (schema.place.name p)
                          (default "" (schema.place.phone p)) "" "")
    true 0 (-62135596800000) (-62135596800000).

(** The entry of [GetActualPlaces] for a place taken by reservation [r]. *)
Definition taken_place (p : schema.place.row) (r : schema.reservation.row)
  : reservation.ActualPlace.t :=
  reservation.ActualPlace.mk
    (reservation.Place.mk (schema.place.place_id p) (schema.place.name p)
                          (default "" (schema.place.phone p)) "" "")
    false (schema.reservation.user_id r)
    (schema.reservation.start r / 1000) (schema.reservation.finish r / 1000).

(** The entries of a list of actual places that belong to one place, and
    the order of the list by place. *)
Definition at_place (placeID : Z) (ap : reservation.ActualPlace.t) : Prop :=
  reservation.ActualPlace.PlaceID ap = placeID.
#[global] Instance at_place_dec placeID ap : Decision (at_place placeID ap).
Proof. unfold at_place. apply _. Defined.
Definition ascending_place_id (a b : reservation.ActualPlace.t) : Prop :=
  reservation.ActualPlace.PlaceID a <= reservation.ActualPlace.PlaceID b.

(** The entry a free place would have if its user and time fields held the
    zero value of their Go type, [int]. *)
Definition zero_valued_place (p : schema.place.row) : reservation.ActualPlace.t :=
  reservation.ActualPlace.mk
    (reservation.Place.mk (schema.place.place_id p) (schema.place.name p)
                          (default "" (schema.place.phone p)) "" "")
    true 0 0 0.

(** A stored reservation as [GetReservationsByUserID] hands it out. *)
Definition listed (r : schema.reservation.row) : reservation.Reservation.t :=
  reservation.Reservation.mk
    (schema.reservation.reservation_id r) (schema.reservation.place_id r)
    (schema.reservation.start r) (schema.reservation.finish r) 0.

(** Latest start first, on the values handed out. *)
Definition latest_first (a b : reservation.Reservation.t) : Prop :=
  reservation.Reservation.Start b <= reservation.Reservation.Start a.

(** A body that is empty or does not decode. *)
Definition undecoded {Request} (body : http.Decoded Request) : Prop :=
  match body with http.Filled _ => False | _ => True end.

(** A request context that holds the scope [role] and nothing else. *)
Definition scope_only (role : Z) : Context :=
  λ k, match k with oauth.ScopeContext => http.of_int role | _ => http.nil end.

(** A request context with all three values of the token middleware. *)
Definition full_context (claims : gmap string Z) (username : string)
    (role : Z) : Context :=
  λ k, match k with
       | oauth.ClaimsContext => http.of_claims claims
       | oauth.CredentialContext => http.of_string username
       | oauth.ScopeContext => http.of_int role
       end.

(** Sample data for the worked instances: three places, four reservations. *)
Definition sample_db : schema.Database :=
  schema.mkDatabase
    [schema.place.mk 2 "B" None; schema.place.mk 1 "A" (Some "555");
     schema.place.mk 3 "C" None]
    [schema.reservation.mk 1 1 10000 20000 7;
     schema.reservation.mk 2 1 30000 40000 8;
     schema.reservation.mk 3 3 15000 25000 9;
     schema.reservation.mk 4 3 18000 30000 9]
    5.

Definition sample_storage : postgres.Storage :=
  postgres.mkStorage sample_db (λ _, None).

(** A storage with one place and no reservation. *)
Definition lone_place : schema.place.row := schema.place.mk 1 "A" None.
Definition lone_place_storage : postgres.Storage :=
  postgres.mkStorage (schema.mkDatabase [lone_place] [] 1) (λ _, None).

(** Stand-ins for the entity operation [DeleteItem] in the worked instances:
    one that reports success and one that reports an error. *)
Definition DeleteItem_succeeds (storage : postgres.Storage) (itemID : Z)
  : postgres.Storage * error := (storage, None).
Definition DeleteItem_fails (storage : postgres.Storage) (itemID : Z)
  : postgres.Storage * error := (storage, Some "shop.DeleteItem: driver: bad connection").

(** Stand-ins for the credential check [UserAuth] in the worked instances:
    one that rejects with the given error text, one that rejects with a nil
    error, one that accepts. *)
Definition UserAuth_rejects (text : string)
    (storage : postgres.Storage) (login password : string) : bool * error :=
  (false, Some text).
Definition UserAuth_rejects_nil
    (storage : postgres.Storage) (login password : string) : bool * error :=
  (false, None).
Definition UserAuth_accepts
    (storage : postgres.Storage) (login password : string) : bool * error :=
  (true, None).

(** A login request that decodes and validates. *)
Definition alice : logIn.Request := logIn.mkRequest "alice" "secret".

(** No double booking: no two rows of the table, at different positions,
    are for the same place and pass the OVERLAPS test. *)
Definition no_double_booking (rows : list schema.reservation.row) : Prop :=
  forall (i j : nat) (ri rj : schema.reservation.row),
    (i < j)%nat -> rows !! i = Some ri -> rows !! j = Some rj ->
    schema.reservation.place_id ri = schema.reservation.place_id rj ->
    pg.OVERLAPS (schema.reservation.start ri) (schema.reservation.finish ri)
                (schema.reservation.start rj) (schema.reservation.finish rj)
    = false.

(** The sample data behind a driver that refuses every statement. *)
Definition broken_storage : postgres.Storage :=
  postgres.mkStorage sample_db (λ _, Some "driver: bad connection").

(** The place fields of an entry of [GetActualPlaces] for a stored place. *)
Definition place_of (p : schema.place.row) : reservation.Place.t :=
  reservation.Place.mk (schema.place.place_id p) (schema.place.name p)
                       (default "" (schema.place.phone p)) "" "".

(** A login body that decodes into a request with both fields filled in. *)
Definition validated (body : http.Decoded logIn.Request) (req : logIn.Request)
  : Prop :=
  body = http.Filled req /\ logIn.Login req <> "" /\ logIn.Password req <> "".

(** Two entity operations that do the same to the storage and fail on the
    same calls, whatever their error texts. *)
Definition same_but_error_text
    (D1 D2 : postgres.Storage -> Z -> postgres.Storage * error) : Prop :=
  forall storage itemID,
    (D1 storage itemID).1 = (D2 storage itemID).1 /\
    (is_Some (D1 storage itemID).2 <-> is_Some (D2 storage itemID).2).

(** What OVERLAPS tests once it has put each pair in order (the earlier
    value first): the two ordered pairs start together, or the one that
    starts later starts strictly before the other ends. *)
Definition ordered_overlap (s1 e1 s2 e2 : pg.Timestamp) : Prop :=
  Z.min s1 e1 = Z.min s2 e2 \/
  (Z.min s2 e2 < Z.min s1 e1 /\ Z.min s1 e1 < Z.max s2 e2) \/
  (Z.min s1 e1 < Z.min s2 e2 /\ Z.min s2 e2 < Z.max s1 e1).

(** A storage whose one reservation starts and finishes at the same
    instant. *)
Definition instant_reservation : schema.reservation.row :=
  schema.reservation.mk 1 1 1000 1000 7.
Definition instant_storage : postgres.Storage :=
  postgres.mkStorage (schema.mkDatabase [lone_place] [instant_reservation] 2)
                     (λ _, None).

(** A storage with two reservations of one place that do not overlap. *)
Definition booked_storage : postgres.Storage :=
  postgres.mkStorage
    (schema.mkDatabase [lone_place]
       [schema.reservation.mk 1 1 10000 20000 7;
        schema.reservation.mk 2 1 30000 40000 8] 3)
    (λ _, None).

(** The two round trips of [InsertReservation], each on its own: the check
    (the query [qrGetIsPlaceAvailable] and the test of its first row) and
    the insert (the statement [qrInsertReservation]). *)
Definition InsertReservation_check (storage : postgres.Storage) (placeID : Z)
    (start finish : pg.Timestamp) : error :=
  let op := "storage.postgres.entities.reservation.InsertReservation" in
  match postgres.Query storage postgres.qrGetIsPlaceAvailable
          (sql.GetIsPlaceAvailable (postgres.DB storage) placeID start finish)
  with
  | inr err => Some (Errorf op err)
  | inl (_ :: _) => Some (Errorf op "place is already taken")
  | inl [] => None
  end.

Definition InsertReservation_exec (storage : postgres.Storage)
    (placeID userID : Z) (start finish : pg.Timestamp)
  : postgres.Storage * error :=
  let op := "storage.postgres.entities.reservation.InsertReservation" in
  match postgres.Exec storage postgres.qrInsertReservation
          (sql.InsertReservation (postgres.DB storage)
             placeID userID start finish)
  with
  | inr err => (storage, Some (Errorf op err))
  | inl storage' => (storage', None)
  end.

(** The status codes the handlers choose from. *)
Definition http_codes : list Z := [200; 400; 403; 422; 500].

(* ===================================================================== *)
(** ** The overlap test *)
(* ===================================================================== *)

Section Overlaps.
Implicit Types s e : pg.Timestamp.

Lemma ordered_proper s e : s < e -> pg.ordered s e = (s, e).
Proof.
  intros Hse. unfold pg.ordered.
  destruct (Z.gtb_spec s e); [lia | reflexivity].
Qed.

Lemma OVERLAPS_proper s1 e1 s2 e2 :
  s1 < e1 -> s2 < e2 ->
  pg.OVERLAPS s1 e1 s2 e2 = true <-> s1 < e2 /\ s2 < e1.
Proof.
  intros H1 H2. unfold pg.OVERLAPS.
  rewrite !ordered_proper by assumption.
  destruct (Z.gtb_spec s1 s2).
  - rewrite Z.ltb_lt. lia.
  - destruct (Z.ltb_spec s1 s2).
    + rewrite Z.ltb_lt. lia.
    + split; [lia | done].
Qed.

Lemma OVERLAPS_sym s1 e1 s2 e2 :
  pg.OVERLAPS s1 e1 s2 e2 = pg.OVERLAPS s2 e2 s1 e1.
Proof.
  unfold pg.OVERLAPS, pg.ordered.
  destruct (Z.gtb_spec s1 e1), (Z.gtb_spec s2 e2);
    repeat match goal with
    | |- context [?a >? ?b] => destruct (Z.gtb_spec a b)
    | |- context [?a <? ?b] => destruct (Z.ltb_spec a b)
    end; try reflexivity; lia.
Qed.

Lemma OVERLAPS_neither_ends_before s1 e1 s2 e2 :
  s1 < e1 -> s2 < e2 ->
  pg.OVERLAPS s1 e1 s2 e2 = true <-> neither_ends_before s1 e1 s2 e2.
Proof.
  intros H1 H2. rewrite OVERLAPS_proper by assumption.
  unfold neither_ends_before. lia.
Qed.

(** Outside the proper intervals the test is a different one: a pair with
    equal ends is an instant, and it overlaps an interval that starts at
    it. *)
Lemma OVERLAPS_instant s e : s < e -> pg.OVERLAPS s s s e = true.
Proof.
  intros Hse. unfold pg.OVERLAPS, pg.ordered.
  destruct (Z.gtb_spec s s); [lia|].
  destruct (Z.gtb_spec s e); [lia|].
  destruct (Z.gtb_spec s s); [lia|].
  destruct (Z.ltb_spec s s); [lia | reflexivity].
Qed.

End Overlaps.

(** OVERLAPS on any two pairs, proper or not. *)
Lemma OVERLAPS_ordered_overlap (s1 e1 s2 e2 : pg.Timestamp) :
  pg.OVERLAPS s1 e1 s2 e2 = true <-> ordered_overlap s1 e1 s2 e2.
Proof.
  unfold pg.OVERLAPS, pg.ordered, ordered_overlap.
  destruct (Z.gtb_spec s1 e1), (Z.gtb_spec s2 e2);
    repeat match goal with
    | |- context [?a >? ?b] => destruct (Z.gtb_spec a b)
    | |- context [?a <? ?b] => destruct (Z.ltb_spec a b)
    end;
    (split; [intros Htrue; try discriminate Htrue | intros Hover; try reflexivity]);
    lia.
Qed.

Lemma ordered_overlap_proper (s1 e1 s2 e2 : pg.Timestamp) :
  s1 < e1 -> s2 < e2 ->
  ordered_overlap s1 e1 s2 e2 <-> neither_ends_before s1 e1 s2 e2.
Proof.
  intros H1 H2. unfold ordered_overlap, neither_ends_before. lia.
Qed.

(** C7, as the code has it.  The WHERE clause of the availability query, of
    the insert-time check and of HasUserReservationInDateRange is
    PostgreSQL's OVERLAPS, which first orders each pair (the earlier value
    is the start) and then holds when the two ordered pairs start together
    or the later start lies strictly before the other pair's end.  For two
    intervals with start before finish that is: neither interval ends at or
    before the other begins, so intervals that only touch do not overlap. *)
Theorem overlap_test_on_ordered_pairs
    (q_start q_finish : pg.Timestamp)
    (p : schema.place.row) (r : schema.reservation.row) :
  (sql.where_actual q_start q_finish (p, r) <->
     ordered_overlap q_start q_finish
       (schema.reservation.start r) (schema.reservation.finish r)) /\
  (sql.where_place_taken (schema.reservation.place_id r) q_start q_finish r <->
     ordered_overlap (schema.reservation.start r)
       (schema.reservation.finish r) q_start q_finish) /\
  (sql.where_user_in_range (schema.reservation.user_id r) q_start q_finish r <->
     ordered_overlap (schema.reservation.start r)
       (schema.reservation.finish r) q_start q_finish) /\
  (q_start < q_finish ->
   schema.reservation.start r < schema.reservation.finish r ->
   (sql.where_actual q_start q_finish (p, r) <->
      neither_ends_before q_start q_finish
        (schema.reservation.start r) (schema.reservation.finish r)) /\
   (sql.where_place_taken (schema.reservation.place_id r) q_start q_finish r <->
      neither_ends_before (schema.reservation.start r)
        (schema.reservation.finish r) q_start q_finish) /\
   (sql.where_user_in_range (schema.reservation.user_id r) q_start q_finish r <->
      neither_ends_before (schema.reservation.start r)
        (schema.reservation.finish r) q_start q_finish) /\
   (schema.reservation.finish r = q_start \/
    q_finish = schema.reservation.start r ->
      ¬ sql.where_actual q_start q_finish (p, r) /\
      ¬ sql.where_place_taken (schema.reservation.place_id r)
          q_start q_finish r /\
      ¬ sql.where_user_in_range (schema.reservation.user_id r)
          q_start q_finish r)).
Proof.
  assert (Hactual : sql.where_actual q_start q_finish (p, r) <->
            ordered_overlap q_start q_finish
              (schema.reservation.start r) (schema.reservation.finish r)).
  { unfold sql.where_actual. simpl. apply OVERLAPS_ordered_overlap. }
  assert (Hplace : sql.where_place_taken (schema.reservation.place_id r)
                     q_start q_finish r <->
            ordered_overlap (schema.reservation.start r)
              (schema.reservation.finish r) q_start q_finish).
  { unfold sql.where_place_taken. rewrite OVERLAPS_ordered_overlap. tauto. }
  assert (Huser : sql.where_user_in_range (schema.reservation.user_id r)
                    q_start q_finish r <->
            ordered_overlap (schema.reservation.start r)
              (schema.reservation.finish r) q_start q_finish).
  { unfold sql.where_user_in_range. rewrite OVERLAPS_ordered_overlap. tauto. }
  split; [exact Hactual|]. split; [exact Hplace|]. split; [exact Huser|].
  intros Hq Hr. rewrite Hactual, Hplace, Huser.
  rewrite (ordered_overlap_proper _ _ _ _ Hq Hr).
  rewrite (ordered_overlap_proper _ _ _ _ Hr Hq).
  split; [reflexivity|]. split; [reflexivity|]. split; [reflexivity|].
  intros Htouch. unfold neither_ends_before. lia.
Qed.

Lemma overlap_test_on_ordered_pairs_witness :
  (sql.where_actual 20000 30000
     (schema.place.mk 1 "A" None, schema.reservation.mk 1 1 10000 20000 7) <->
   neither_ends_before 20000 30000 10000 20000) /\
  (sql.where_place_taken 1 20000 30000
     (schema.reservation.mk 1 1 10000 20000 7) <->
   neither_ends_before 10000 20000 20000 30000) /\
  (sql.where_user_in_range 7 20000 30000
     (schema.reservation.mk 1 1 10000 20000 7) <->
   neither_ends_before 10000 20000 20000 30000) /\
  (20000 = 20000 \/ 30000 = 10000 ->
   ¬ sql.where_actual 20000 30000
       (schema.place.mk 1 "A" None, schema.reservation.mk 1 1 10000 20000 7) /\
   ¬ sql.where_place_taken 1 20000 30000
       (schema.reservation.mk 1 1 10000 20000 7) /\
   ¬ sql.where_user_in_range 7 20000 30000
       (schema.reservation.mk 1 1 10000 20000 7)).
Proof.
  apply (overlap_test_on_ordered_pairs 20000 30000
           (schema.place.mk 1 "A" None)
           (schema.reservation.mk 1 1 10000 20000 7));
    simpl; lia.
Defined.

(** The claim as the spec words it holds for every two intervals; the code
    never asks that start be before finish, and outside that case the test
    is another one.  A stored reservation from 1000 to 1000 ends at 1000,
    where the request from 1000 to 2000 begins, and yet all three WHERE
    clauses hold for the two, so the insert of the touching request is
    refused; and the pair (10, 0) is read as (0, 10) and overlaps (3, 4). *)
Lemma overlap_test_instant_blocks_touching :
  ¬ neither_ends_before 1000 1000 1000 2000 /\
  sql.where_actual 1000 2000 (lone_place, instant_reservation) /\
  sql.where_place_taken 1 1000 2000 instant_reservation /\
  sql.where_user_in_range 7 1000 2000 instant_reservation /\
  reservation.InsertReservation instant_storage 1 8 1000 2000 =
    (instant_storage,
     Some "storage.postgres.entities.reservation.InsertReservation: place is already taken") /\
  ¬ neither_ends_before 10 0 3 4 /\
  pg.OVERLAPS 10 0 3 4 = true.
Proof.
  split; [unfold neither_ends_before; lia|].
  split; [reflexivity|]. split; [by split|]. split; [by split|].
  split; [reflexivity|].
  split; [unfold neither_ends_before; lia | reflexivity].
Qed.

(* ===================================================================== *)
(** ** Reservation insert, update and delete *)
(* ===================================================================== *)

Section Filter.
Context {A : Type} (P : A -> Prop) `{!forall x, Decision (P x)}.

Lemma filter_none (l : list A) :
  (forall x, x ∈ l -> ¬ P x) -> filter P l = [].
Proof.
  induction l as [|y l IH]; intros Hl; [reflexivity|].
  rewrite filter_cons_False by (apply Hl; left).
  apply IH. intros x Hx. apply Hl. by right.
Qed.

Lemma filter_some (l : list A) (x : A) :
  x ∈ l -> P x -> exists y k, filter P l = y :: k.
Proof.
  intros Hx HP.
  assert (Hin : x ∈ filter P l) by (by apply list_elem_of_filter).
  destruct (filter P l) as [|y k]; [by apply not_elem_of_nil in Hin | eauto].
Qed.

End Filter.

(** C1.  With a driver that refuses nothing: if a stored reservation of the
    place overlaps the requested interval, InsertReservation fails with the
    "place is already taken" error and the storage is the one it was given;
    if none does, it succeeds and the storage has one more reservation row,
    carrying the given place_id, user_id, start and finish. *)
Theorem InsertReservation_taken_or_inserted
    (storage : postgres.Storage) (placeID userID : Z)
    (start finish : pg.Timestamp) :
  postgres.healthy storage ->
  ((exists r, r ∈ schema.reservation_tbl (postgres.DB storage) /\
              sql.where_place_taken placeID start finish r) ->
   reservation.InsertReservation storage placeID userID start finish =
     (storage,
      Some "storage.postgres.entities.reservation.InsertReservation: place is already taken"))
  /\
  ((forall r, r ∈ schema.reservation_tbl (postgres.DB storage) ->
              ¬ sql.where_place_taken placeID start finish r) ->
   reservation.InsertReservation storage placeID userID start finish =
     (postgres.mkStorage
        (schema.mkDatabase
           (schema.place_tbl (postgres.DB storage))
           (schema.reservation_tbl (postgres.DB storage) ++
              [schema.reservation.mk
                 (schema.reservation_id_seq (postgres.DB storage))
                 placeID start finish userID])
           (schema.reservation_id_seq (postgres.DB storage) + 1))
        (postgres.refuses storage),
      None)).
Proof.
  intros Hdrv.
  unfold reservation.InsertReservation, postgres.Query, postgres.Exec.
  rewrite !Hdrv. unfold sql.GetIsPlaceAvailable. split.
  - intros (r & Hr & Hover).
    destruct (filter_some (sql.where_place_taken placeID start finish)
                _ r Hr Hover) as (y & k & ->).
    reflexivity.
  - intros Hfree.
    rewrite (filter_none (sql.where_place_taken placeID start finish))
      by exact Hfree.
    reflexivity.
Qed.

Lemma InsertReservation_taken_or_inserted_witness :
  reservation.InsertReservation sample_storage 1 5 19000 30000 =
    (sample_storage,
     Some "storage.postgres.entities.reservation.InsertReservation: place is already taken")
  /\
  reservation.InsertReservation sample_storage 1 5 20000 30000 =
    (postgres.mkStorage
       (schema.mkDatabase
          (schema.place_tbl sample_db)
          (schema.reservation_tbl sample_db ++
             [schema.reservation.mk 5 1 20000 30000 5])
          6)
       (λ _, None),
     None).
Proof.
  assert (Hdrv : postgres.healthy sample_storage) by (intros q; reflexivity).
  split.
  - apply (proj1 (InsertReservation_taken_or_inserted
                    sample_storage 1 5 19000 30000 Hdrv)).
    exists (schema.reservation.mk 1 1 10000 20000 7).
    split; [by left | by vm_compute].
  - apply (proj2 (InsertReservation_taken_or_inserted
                    sample_storage 1 5 20000 30000 Hdrv)).
    intros r Hr [Hplace Hover].
    simpl in Hr.
    repeat (apply elem_of_cons in Hr as [-> | Hr]); [..| by apply not_elem_of_nil in Hr];
      vm_compute in Hplace, Hover; congruence.
Defined.

(** A failed InsertReservation leaves the storage as it was: the place was
    taken, or the driver refused a statement before it ran. *)
Lemma InsertReservation_error_keeps_storage
    (storage : postgres.Storage) (placeID userID : Z)
    (start finish : pg.Timestamp) (err : string) :
  (reservation.InsertReservation storage placeID userID start finish).2 = Some err ->
  (reservation.InsertReservation storage placeID userID start finish).1 = storage.
Proof.
  unfold reservation.InsertReservation, postgres.Query, postgres.Exec.
  destruct (postgres.refuses storage postgres.qrGetIsPlaceAvailable); [done|].
  destruct (sql.GetIsPlaceAvailable _ _ _ _); [|done].
  destruct (postgres.refuses storage postgres.qrInsertReservation); done.
Qed.

Section Frame.
Import schema.

Lemma set_reservation_other placeID start finish reservationID r :
  reservation.reservation_id r <> reservationID ->
  sql.set_reservation placeID start finish reservationID r = r.
Proof. intros Hne. unfold sql.set_reservation. by rewrite decide_False. Qed.

Lemma set_reservation_id placeID start finish reservationID r :
  reservation.reservation_id
    (sql.set_reservation placeID start finish reservationID r) =
  reservation.reservation_id r.
Proof. unfold sql.set_reservation. by destruct (decide _). Qed.

Lemma set_reservation_user placeID start finish reservationID r :
  reservation.user_id
    (sql.set_reservation placeID start finish reservationID r) =
  reservation.user_id r.
Proof. unfold sql.set_reservation. by destruct (decide _). Qed.

(** The rows that an update by [reservationID] does not target, before and
    after. *)
Lemma update_keeps_others placeID start finish reservationID
    (rows : list reservation.row) :
  filter (λ r, reservation.reservation_id r <> reservationID)
         (sql.set_reservation placeID start finish reservationID <$> rows) =
  filter (λ r, reservation.reservation_id r <> reservationID) rows.
Proof.
  induction rows as [|r rows IH]; [reflexivity|].
  rewrite fmap_cons, !filter_cons, set_reservation_id.
  destruct (decide (reservation.reservation_id r <> reservationID)) as [Hne|Heq].
  - rewrite set_reservation_other by exact Hne. by rewrite IH.
  - exact IH.
Qed.

Lemma update_absent placeID start finish reservationID
    (rows : list reservation.row) :
  (forall r, r ∈ rows -> reservation.reservation_id r <> reservationID) ->
  sql.set_reservation placeID start finish reservationID <$> rows = rows.
Proof.
  induction rows as [|r rows IH]; intros Habs; [reflexivity|].
  rewrite fmap_cons, set_reservation_other by (apply Habs; left).
  rewrite IH; [reflexivity|]. intros x Hx. apply Habs. by right.
Qed.

Lemma filter_all {A} (P : A -> Prop) `{!forall x, Decision (P x)} (l : list A) :
  (forall x, x ∈ l -> P x) -> filter P l = l.
Proof.
  induction l as [|y l IH]; intros Hl; [reflexivity|].
  rewrite filter_cons_True by (apply Hl; left).
  rewrite IH; [reflexivity|]. intros x Hx. apply Hl. by right.
Qed.

End Frame.

(** C9.  With a driver that refuses nothing, UpdateReservation and
    DeleteReservation succeed on every input: no row is looked up first and
    no overlap is tested.  The update leaves the places, the sequence, the
    number and ids of the rows and their users alone, gives every row with
    the given reservation_id the new place_id, start and finish, and keeps
    every other row as it is; the delete keeps exactly the rows with another
    reservation_id, in order.  When no row has the id, neither changes the
    tables. *)
Theorem UpdateReservation_DeleteReservation_unconditional
    (storage : postgres.Storage) (reservationID placeID : Z)
    (start finish : pg.Timestamp) :
  postgres.healthy storage ->
  let old := schema.reservation_tbl (postgres.DB storage) in
  let other (r : schema.reservation.row) :=
    schema.reservation.reservation_id r <> reservationID in
  let updated :=
    reservation.UpdateReservation storage reservationID placeID start finish in
  let deleted := reservation.DeleteReservation storage reservationID in
  (updated.2 = None /\
   schema.place_tbl (postgres.DB updated.1) =
     schema.place_tbl (postgres.DB storage) /\
   schema.reservation_id_seq (postgres.DB updated.1) =
     schema.reservation_id_seq (postgres.DB storage) /\
   schema.reservation.reservation_id
     <$> schema.reservation_tbl (postgres.DB updated.1) =
     schema.reservation.reservation_id <$> old /\
   schema.reservation.user_id
     <$> schema.reservation_tbl (postgres.DB updated.1) =
     schema.reservation.user_id <$> old /\
   (forall r, r ∈ schema.reservation_tbl (postgres.DB updated.1) ->
      schema.reservation.reservation_id r = reservationID ->
      schema.reservation.place_id r = placeID /\
      schema.reservation.start r = start /\
      schema.reservation.finish r = finish) /\
   filter other (schema.reservation_tbl (postgres.DB updated.1)) =
     filter other old /\
   ((forall r, r ∈ old -> other r) -> updated.1 = storage))
  /\
  (deleted.2 = None /\
   schema.place_tbl (postgres.DB deleted.1) =
     schema.place_tbl (postgres.DB storage) /\
   schema.reservation_id_seq (postgres.DB deleted.1) =
     schema.reservation_id_seq (postgres.DB storage) /\
   schema.reservation_tbl (postgres.DB deleted.1) = filter other old /\
   (forall r, r ∈ schema.reservation_tbl (postgres.DB deleted.1) -> other r) /\
   ((forall r, r ∈ old -> other r) -> deleted.1 = storage)).
Proof.
  intros Hdrv old other updated deleted.
  subst updated deleted.
  unfold reservation.UpdateReservation, reservation.DeleteReservation,
    postgres.Exec.
  rewrite !Hdrv. simpl. split.
  - split; [reflexivity|]. split; [reflexivity|]. split; [reflexivity|].
    split.
    { rewrite <- list_fmap_compose. apply list_fmap_ext.
      intros i r _. apply set_reservation_id. }
    split.
    { rewrite <- list_fmap_compose. apply list_fmap_ext.
      intros i r _. apply set_reservation_user. }
    split.
    { intros r Hr Hid. apply list_elem_of_fmap in Hr as (r0 & -> & _).
      rewrite set_reservation_id in Hid.
      unfold sql.set_reservation. rewrite decide_True by exact Hid. done. }
    split; [apply update_keeps_others|].
    intros Habs. destruct storage as [[places rows seq] drv]. simpl in *.
    unfold sql.UpdateReservation. simpl.
    by rewrite update_absent.
  - split; [reflexivity|]. split; [reflexivity|]. split; [reflexivity|].
    split; [reflexivity|]. split.
    { intros r Hr. by apply list_elem_of_filter in Hr as [? _]. }
    intros Habs. destruct storage as [[places rows seq] drv]. simpl in *.
    unfold sql.DeleteReservation. simpl.
    by rewrite filter_all.
Qed.

Lemma UpdateReservation_DeleteReservation_unconditional_witness :
  postgres.healthy sample_storage /\
  (* moving reservation 2 onto the interval of reservation 1 succeeds *)
  (reservation.UpdateReservation sample_storage 2 1 12000 18000).2 = None /\
  filter (λ r, schema.reservation.reservation_id r <> 2)
    (schema.reservation_tbl
       (postgres.DB
          (reservation.UpdateReservation sample_storage 2 1 12000 18000).1)) =
  filter (λ r, schema.reservation.reservation_id r <> 2)
    (schema.reservation_tbl sample_db) /\
  (* deleting reservation 2 keeps the other rows, in order *)
  (reservation.DeleteReservation sample_storage 2).2 = None /\
  schema.reservation_tbl
    (postgres.DB (reservation.DeleteReservation sample_storage 2).1) =
  filter (λ r, schema.reservation.reservation_id r <> 2)
    (schema.reservation_tbl sample_db).
Proof.
  assert (Hdrv : postgres.healthy sample_storage) by (intros q; reflexivity).
  destruct (UpdateReservation_DeleteReservation_unconditional
              sample_storage 2 1 12000 18000 Hdrv)
    as [(Hok & _ & _ & _ & _ & _ & Hframe & _) (Hok' & _ & _ & Hrows & _)].
  split; [exact Hdrv|]. split; [exact Hok|]. split; [exact Hframe|].
  split; [exact Hok'| exact Hrows].
Defined.

(* ===================================================================== *)
(** ** Listing a user's reservations *)
(* ===================================================================== *)

#[local] Instance by_start_desc_trans : Transitive sql.by_start_desc.
Proof. intros a b c. unfold sql.by_start_desc. lia. Qed.
#[local] Instance by_start_desc_total : Total sql.by_start_desc.
Proof. intros a b. unfold sql.by_start_desc. lia. Qed.

Lemma listed_sorted (rows : list schema.reservation.row) :
  StronglySorted sql.by_start_desc rows ->
  StronglySorted latest_first (listed <$> rows).
Proof.
  induction 1 as [|r rows Hsorted IH Hall]; [constructor|].
  rewrite fmap_cons. constructor; [exact IH|].
  apply Forall_fmap. eapply Forall_impl; [exact Hall|].
  intros r' Hr'. exact Hr'.
Qed.

(** C8.  With a driver that refuses nothing, GetReservationsByUserID hands
    out exactly the stored reservations whose user_id is the argument (each
    of them once per stored row, with its reservation_id, place_id, start and
    finish; the UserID field is not read back and stays zero), latest start
    first. *)
Theorem GetReservationsByUserID_user_rows_latest_first
    (storage : postgres.Storage) (userID : Z) :
  postgres.healthy storage ->
  exists rows : list schema.reservation.row,
    rows ≡ₚ filter (λ r, schema.reservation.user_id r = userID)
              (schema.reservation_tbl (postgres.DB storage)) /\
    reservation.GetReservationsByUserID storage userID = (listed <$> rows, None) /\
    StronglySorted latest_first (listed <$> rows).
Proof.
  intros Hdrv.
  exists (merge_sort sql.by_start_desc
            (filter (λ r, schema.reservation.user_id r = userID)
                    (schema.reservation_tbl (postgres.DB storage)))).
  split; [apply merge_sort_Permutation|]. split.
  - unfold reservation.GetReservationsByUserID, postgres.Query.
    rewrite Hdrv. unfold sql.GetReservationsByUserID.
    by rewrite <- list_fmap_compose.
  - apply listed_sorted, StronglySorted_merge_sort; apply _.
Qed.

Lemma GetReservationsByUserID_user_rows_latest_first_witness :
  exists rows : list schema.reservation.row,
    rows ≡ₚ filter (λ r, schema.reservation.user_id r = 9)
              (schema.reservation_tbl (postgres.DB sample_storage)) /\
    reservation.GetReservationsByUserID sample_storage 9 = (listed <$> rows, None) /\
    StronglySorted latest_first (listed <$> rows).
Proof.
  apply (GetReservationsByUserID_user_rows_latest_first sample_storage 9).
  intros q. reflexivity.
Defined.

Example GetReservationsByUserID_sample :
  reservation.GetReservationsByUserID sample_storage 9 =
    ([reservation.Reservation.mk 4 3 18000 30000 0;
      reservation.Reservation.mk 3 3 15000 25000 0], None).
Proof. vm_compute. reflexivity. Qed.

(* ===================================================================== *)
(** ** The availability query *)
(* ===================================================================== *)

#[local] Instance by_place_id_trans : Transitive sql.by_place_id.
Proof. intros a b c. unfold sql.by_place_id. lia. Qed.
#[local] Instance by_place_id_total : Total sql.by_place_id.
Proof. intros a b. unfold sql.by_place_id. lia. Qed.

Section ListFacts.
Context {A B : Type}.

(** A key column identifies the row. *)
Lemma key_identifies (key : A -> B) (l : list A) (x y : A) :
  NoDup (key <$> l) -> x ∈ l -> y ∈ l -> key x = key y -> x = y.
Proof.
  induction l as [|z l IH]; intros Hnd Hx Hy Hkey.
  - by apply not_elem_of_nil in Hx.
  - rewrite fmap_cons in Hnd. apply NoDup_cons in Hnd as [Hz Hnd].
    apply elem_of_cons in Hx as [-> | Hx];
      apply elem_of_cons in Hy as [-> | Hy].
    + reflexivity.
    + exfalso. apply Hz. rewrite Hkey. by apply list_elem_of_fmap_2.
    + exfalso. apply Hz. rewrite <- Hkey. by apply list_elem_of_fmap_2.
    + by apply IH.
Qed.

(** A duplicate-free list holds exactly one element with a property that
    only that element has. *)
Lemma filter_the_one (P : A -> Prop) `{!forall x, Decision (P x)}
    (l : list A) (a : A) :
  NoDup l -> (forall x, x ∈ l /\ P x <-> x = a) -> filter P l = [a].
Proof.
  intros Hnd Hone. apply Permutation_singleton_r.
  apply NoDup_Permutation.
  - by apply NoDup_filter.
  - apply NoDup_singleton.
  - intros x. rewrite list_elem_of_filter, list_elem_of_singleton.
    rewrite <- Hone. tauto.
Qed.

Lemma filter_fmap_key (f : A -> B) (P : B -> Prop) (Q : A -> Prop)
    `{!forall y, Decision (P y)} `{!forall x, Decision (Q x)} (l : list A) :
  (forall x, P (f x) <-> Q x) ->
  filter P (f <$> l) = f <$> filter Q l.
Proof.
  intros HPQ. induction l as [|x l IH]; [reflexivity|].
  rewrite fmap_cons, !filter_cons.
  destruct (decide (P (f x))) as [HP|HP], (decide (Q x)) as [HQ|HQ].
  - by rewrite fmap_cons, IH.
  - by apply HPQ in HP.
  - by apply HPQ in HQ.
  - exact IH.
Qed.

End ListFacts.

Section ActualPlaces.
Import schema.
Variables (db : Database) (q_start q_finish : pg.Timestamp).

Local Abbreviation overlapping :=
  (filter (sql.where_actual q_start q_finish) (place_and_reservation db)).

Lemma elem_of_view (p : place.row) (r : reservation.row) :
  (p, r) ∈ place_and_reservation db <->
  p ∈ place_tbl db /\ r ∈ reservation_tbl db /\
  reservation.place_id r = place.place_id p.
Proof.
  unfold place_and_reservation. rewrite list_elem_of_bind. split.
  - intros (p' & Hin & Hp'). apply list_elem_of_bind in Hin as (r' & Hin & Hr').
    apply list_elem_of_singleton in Hin. injection Hin as -> ->.
    apply list_elem_of_filter in Hr' as [Hplace Hr']. done.
  - intros (Hp & Hr & Hplace). exists p. split; [|exact Hp].
    apply list_elem_of_bind. exists r. split; [by apply list_elem_of_singleton|].
    by apply list_elem_of_filter.
Qed.

Lemma elem_of_overlapping (p : place.row) (r : reservation.row) :
  (p, r) ∈ overlapping <->
  p ∈ place_tbl db /\ r ∈ reservation_tbl db /\
  sql.where_place_taken (place.place_id p) q_start q_finish r.
Proof.
  rewrite list_elem_of_filter, elem_of_view.
  unfold sql.where_actual, sql.where_place_taken. simpl.
  rewrite (OVERLAPS_sym q_start q_finish). tauto.
Qed.

(** The rows of [qrGetActualPlaces]: a place as available unless one of its
    overlapping view rows says otherwise, and every overlapping view row as
    taken. *)
Lemma elem_of_GetActualPlaces (x : sql.actual.row) :
  x ∈ sql.GetActualPlaces db q_start q_finish <->
  (exists p, p ∈ place_tbl db /\ x = sql.as_available p /\
             forall pr, pr ∈ overlapping -> x <> sql.as_available pr.1) \/
  (exists pr, pr ∈ overlapping /\ x = sql.as_taken pr).
Proof.
  unfold sql.GetActualPlaces. rewrite merge_sort_Permutation.
  unfold sql.UNION, sql.EXCEPT.
  rewrite list_elem_of_union, !elem_of_remove_dups, list_elem_of_difference.
  rewrite !elem_of_remove_dups, !list_elem_of_fmap.
  split.
  - intros [[(p & -> & Hp) Hnot] | (pr & -> & Hpr)].
    + left. exists p. split; [exact Hp|]. split; [reflexivity|].
      intros pr Hpr Heq. apply Hnot. by exists pr.
    + right. by exists pr.
  - intros [(p & Hp & -> & Hnot) | (pr & Hpr & ->)].
    + left. split; [by exists p|].
      intros (pr & Heq & Hpr). by apply (Hnot pr).
    + right. by exists pr.
Qed.

Lemma NoDup_GetActualPlaces : NoDup (sql.GetActualPlaces db q_start q_finish).
Proof.
  unfold sql.GetActualPlaces. rewrite merge_sort_Permutation.
  apply NoDup_list_union; apply NoDup_remove_dups.
Qed.

Hypothesis place_id_key : NoDup (place.place_id <$> place_tbl db).

(** The rows of a place none of whose reservations overlaps the query. *)
Lemma rows_of_free_place (p : place.row) :
  p ∈ place_tbl db ->
  (forall r, r ∈ reservation_tbl db ->
             ¬ sql.where_place_taken (place.place_id p) q_start q_finish r) ->
  filter (λ x, sql.actual.place_id x = place.place_id p)
         (sql.GetActualPlaces db q_start q_finish) = [sql.as_available p].
Proof.
  intros Hp Hfree. apply filter_the_one; [apply NoDup_GetActualPlaces|].
  intros x. rewrite elem_of_GetActualPlaces. split.
  - intros [[(p' & Hp' & -> & _) | ([p' r] & Hpr & ->)] Hid]; simpl in Hid.
    + by rewrite (key_identifies place.place_id _ p' p place_id_key Hp' Hp Hid).
    + apply elem_of_overlapping in Hpr as (Hp' & Hr & Hover).
      rewrite Hid in Hover. by destruct (Hfree r Hr).
  - intros ->. split; [|reflexivity]. left. exists p.
    split; [exact Hp|]. split; [reflexivity|].
    intros [p' r] Hpr Heq. simpl in Heq.
    apply elem_of_overlapping in Hpr as (Hp' & Hr & Hover).
    assert (Hid : place.place_id p = place.place_id p')
      by exact (f_equal sql.actual.place_id Heq).
    rewrite <- Hid in Hover. by destruct (Hfree r Hr).
Qed.

(** The rows of a place exactly one of whose reservations overlaps the
    query. *)
Lemma rows_of_taken_place (p : place.row) (r : reservation.row) :
  p ∈ place_tbl db ->
  filter (sql.where_place_taken (place.place_id p) q_start q_finish)
         (reservation_tbl db) = [r] ->
  filter (λ x, sql.actual.place_id x = place.place_id p)
         (sql.GetActualPlaces db q_start q_finish) = [sql.as_taken (p, r)].
Proof.
  intros Hp Hone.
  assert (Hr : forall r', r' ∈ reservation_tbl db /\
                 sql.where_place_taken (place.place_id p) q_start q_finish r' <->
                 r' = r).
  { intros r'. rewrite <- list_elem_of_singleton, <- Hone, list_elem_of_filter.
    tauto. }
  assert (Hpr : (p, r) ∈ overlapping).
  { apply elem_of_overlapping. split; [exact Hp|]. by apply Hr. }
  apply filter_the_one; [apply NoDup_GetActualPlaces|].
  intros x. rewrite elem_of_GetActualPlaces. split.
  - intros [[(p' & Hp' & -> & Hnot) | ([p' r'] & Hpr' & ->)] Hid]; simpl in Hid.
    + rewrite (key_identifies place.place_id _ p' p place_id_key Hp' Hp Hid)
        in Hnot.
      by destruct (Hnot (p, r) Hpr).
    + apply elem_of_overlapping in Hpr' as (Hp' & Hr' & Hover).
      rewrite (key_identifies place.place_id _ p' p place_id_key Hp' Hp Hid)
        in Hover |- *.
      f_equal. f_equal. by apply Hr.
  - intros ->. split; [|reflexivity]. right. by exists (p, r).
Qed.

End ActualPlaces.

Lemma scan_as_available (p : schema.place.row) :
  reservation.scan_actual (sql.as_available p) = free_place p.
Proof. reflexivity. Qed.

Lemma scan_as_taken (p : schema.place.row) (r : schema.reservation.row) :
  reservation.scan_actual (sql.as_taken (p, r)) = taken_place p r.
Proof. reflexivity. Qed.

Lemma scan_actual_sorted (rows : list sql.actual.row) :
  StronglySorted sql.by_place_id rows ->
  StronglySorted ascending_place_id (reservation.scan_actual <$> rows).
Proof.
  induction 1 as [|x rows Hsorted IH Hall]; [constructor|].
  rewrite fmap_cons. constructor; [exact IH|].
  apply Forall_fmap. eapply Forall_impl; [exact Hall|].
  intros y Hy. exact Hy.
Qed.

(** C3, as the code has it.  With a driver that refuses nothing and place_id
    a key of the place table, GetActualPlaces returns a list, ascending in
    place_id, in which
    - a place none of whose reservations overlaps the query interval has
      exactly one entry: available, user_id 0, and start and finish both
      -62135596800000, the Unix milliseconds of 0001-01-01 00:00:00;
    - a place exactly one of whose reservations overlaps the query interval
      has exactly one entry: unavailable, with that reservation's user_id
      and its start and finish in Unix milliseconds. *)
Theorem GetActualPlaces_free_and_taken
    (storage : postgres.Storage) (properties : string)
    (q_start q_finish : pg.Timestamp) :
  postgres.healthy storage ->
  NoDup (schema.place.place_id <$> schema.place_tbl (postgres.DB storage)) ->
  exists aps : list reservation.ActualPlace.t,
    reservation.GetActualPlaces storage properties q_start q_finish = (aps, None) /\
    (forall p, p ∈ schema.place_tbl (postgres.DB storage) ->
       (forall r, r ∈ schema.reservation_tbl (postgres.DB storage) ->
          ¬ sql.where_place_taken (schema.place.place_id p) q_start q_finish r) ->
       filter (at_place (schema.place.place_id p)) aps = [free_place p]) /\
    (forall p r, p ∈ schema.place_tbl (postgres.DB storage) ->
       filter (sql.where_place_taken (schema.place.place_id p) q_start q_finish)
              (schema.reservation_tbl (postgres.DB storage)) = [r] ->
       filter (at_place (schema.place.place_id p)) aps = [taken_place p r]) /\
    StronglySorted ascending_place_id aps.
Proof.
  intros Hdrv Hkey.
  exists (reservation.scan_actual
            <$> sql.GetActualPlaces (postgres.DB storage) q_start q_finish).
  split.
  { unfold reservation.GetActualPlaces, postgres.Query. by rewrite Hdrv. }
  assert (Hfilter : forall placeID (rows : list sql.actual.row),
            filter (at_place placeID) (reservation.scan_actual <$> rows) =
            reservation.scan_actual
              <$> filter (λ x, sql.actual.place_id x = placeID) rows).
  { intros placeID rows. apply filter_fmap_key. intros x. reflexivity. }
  split; [|split].
  - intros p Hp Hfree.
    by rewrite Hfilter, (rows_of_free_place _ _ _ Hkey p Hp Hfree).
  - intros p r Hp Hone.
    by rewrite Hfilter, (rows_of_taken_place _ _ _ Hkey p r Hp Hone).
  - apply scan_actual_sorted, StronglySorted_merge_sort; apply _.
Qed.

Lemma GetActualPlaces_free_and_taken_witness :
  exists aps : list reservation.ActualPlace.t,
    reservation.GetActualPlaces sample_storage "" 12000 16000 = (aps, None) /\
    (forall p, p ∈ schema.place_tbl (postgres.DB sample_storage) ->
       (forall r, r ∈ schema.reservation_tbl (postgres.DB sample_storage) ->
          ¬ sql.where_place_taken (schema.place.place_id p) 12000 16000 r) ->
       filter (at_place (schema.place.place_id p)) aps = [free_place p]) /\
    (forall p r, p ∈ schema.place_tbl (postgres.DB sample_storage) ->
       filter (sql.where_place_taken (schema.place.place_id p) 12000 16000)
              (schema.reservation_tbl (postgres.DB sample_storage)) = [r] ->
       filter (at_place (schema.place.place_id p)) aps = [taken_place p r]) /\
    StronglySorted ascending_place_id aps.
Proof.
  apply (GetActualPlaces_free_and_taken sample_storage "" 12000 16000).
  - intros q. reflexivity.
  - apply (bool_decide_unpack _). by vm_compute.
Defined.

Example GetActualPlaces_sample :
  (reservation.GetActualPlaces sample_storage "" 12000 16000).1 =
    [taken_place (schema.place.mk 1 "A" (Some "555"))
                 (schema.reservation.mk 1 1 10000 20000 7);
     free_place (schema.place.mk 2 "B" None);
     taken_place (schema.place.mk 3 "C" None)
                 (schema.reservation.mk 3 3 15000 25000 9)].
Proof. vm_compute. reflexivity. Qed.

(** The claim as the spec words it asks for zero-valued start and finish
    fields on a free place; the one entry of the lone free place carries
    -62135596800000 in both. *)
Lemma GetActualPlaces_free_place_times_not_zero :
  lone_place ∈ schema.place_tbl (postgres.DB lone_place_storage) /\
  schema.reservation_tbl (postgres.DB lone_place_storage) = [] /\
  reservation.GetActualPlaces lone_place_storage "" 0 1000 =
    ([reservation.ActualPlace.mk (reservation.Place.mk 1 "A" "" "" "")
        true 0 (-62135596800000) (-62135596800000)], None) /\
  filter (at_place 1)
    (reservation.GetActualPlaces lone_place_storage "" 0 1000).1 <>
    [zero_valued_place lone_place].
Proof.
  split; [by left|]. split; [reflexivity|]. split; [by vm_compute|].
  vm_compute. intros H. discriminate H.
Qed.

(* ===================================================================== *)
(** ** The delete-item handler *)
(* ===================================================================== *)

Section DeleteItemHandler.
Import http.
Variables ShopEditor SuperAdmin : Z.
Variable DeleteItem : postgres.Storage -> Z -> postgres.Storage * error.
Implicit Types (ctx : Context) (body : Decoded deleteItem.Request)
  (storage : postgres.Storage) (role : Z).

Local Abbreviation New := (deleteItem.New ShopEditor SuperAdmin DeleteItem).

Lemma allowed_role role :
  bool_decide (role ∈ [ShopEditor; SuperAdmin]) = true <->
  role = ShopEditor \/ role = SuperAdmin.
Proof.
  rewrite bool_decide_eq_true, !elem_of_cons.
  split; [intros [?|[?|?%not_elem_of_nil]]; tauto | tauto].
Qed.

(** No role in the token: 500, before anything else. *)
Lemma deleteItem_no_role ctx body storage :
  as_int (ctx oauth.ScopeContext) = Some 0 ->
  New ctx body storage =
    (LogError "no user role in token" +> WriteHeader 500 +>
     render_JSON (resp.Error "no user role in token") +> ret, storage).
Proof. intros Hrole. unfold deleteItem.New. by rewrite Hrole. Qed.

(** A role that is not allowed: 403, before the body is read. *)
Lemma deleteItem_denied ctx body storage role :
  as_int (ctx oauth.ScopeContext) = Some role ->
  role <> 0 -> role <> ShopEditor -> role <> SuperAdmin ->
  New ctx body storage =
    (LogError "access was denied" +> WriteHeader 403 +>
     render_JSON (resp.Error "access was denied") +> ret, storage).
Proof.
  intros Hrole Hnz Hse Hsa. unfold deleteItem.New. rewrite Hrole.
  rewrite decide_False by exact Hnz.
  destruct (bool_decide (role ∈ [ShopEditor; SuperAdmin])) eqn:Hallowed;
    [|reflexivity].
  apply allowed_role in Hallowed. tauto.
Qed.

(** An allowed role: the handler goes on to the body. *)
Lemma deleteItem_allowed ctx body storage role :
  as_int (ctx oauth.ScopeContext) = Some role ->
  role <> 0 -> role = ShopEditor \/ role = SuperAdmin ->
  New ctx body storage =
    match body with
    | EOF =>
        (LogError "request body is empty" +> WriteHeader 400 +>
         render_JSON (resp.Error "empty request") +> ret, storage)
    | Malformed err =>
        (LogError "failed to decode request body" +> WriteHeader 400 +>
         render_JSON (resp.Error "failed to decode request") +> ret, storage)
    | Filled req =>
        if decide (deleteItem.ItemID req = 0) then
          (LogInfo "request body decoded" +> LogError "invalid request" +>
           WriteHeader 400 +>
           render_JSON (resp.ValidationError ["ItemID"]) +> ret, storage)
        else
          match (DeleteItem storage (deleteItem.ItemID req)).2 with
          | Some err =>
              (LogInfo "request body decoded" +>
               Call (http.DeleteItem (deleteItem.ItemID req)) +>
               LogError "failed to delete item from shop" +>
               WriteHeader 422 +>
               render_JSON (resp.Error "failed to delete item from shop") +>
               ret, (DeleteItem storage (deleteItem.ItemID req)).1)
          | None =>
              (LogInfo "request body decoded" +>
               Call (http.DeleteItem (deleteItem.ItemID req)) +>
               LogInfo "item successfully deleted from shop" +>
               render_JSON resp.OK +>
               ret, (DeleteItem storage (deleteItem.ItemID req)).1)
          end
    end.
Proof.
  intros Hrole Hnz Hallowed. unfold deleteItem.New. rewrite Hrole.
  rewrite decide_False by exact Hnz.
  apply allowed_role in Hallowed. rewrite Hallowed. simpl.
  destruct body as [|err|req]; [reflexivity | reflexivity |].
  unfold deleteItem.validate.
  destruct (decide (deleteItem.ItemID req = 0)); [reflexivity|].
  by destruct (DeleteItem storage (deleteItem.ItemID req)) as [storage' [err|]].
Qed.

(** A context without a scope: the assertion [.(int)] panics. *)
Lemma deleteItem_no_scope ctx body storage :
  as_int (ctx oauth.ScopeContext) = None ->
  New ctx body storage = (panic, storage).
Proof. intros Hrole. unfold deleteItem.New. by rewrite Hrole. Qed.

(** Whatever the context, a body that is empty or does not decode never
    reaches the entity operation. *)
Lemma deleteItem_undecoded_no_call ctx body storage :
  undecoded body ->
  calls (events (New ctx body storage).1) = [] /\
  (New ctx body storage).2 = storage.
Proof.
  intros Hbody. unfold deleteItem.New.
  destruct (as_int (ctx oauth.ScopeContext)) as [role|]; [|done].
  destruct (decide (role = 0)); [done|].
  destruct (negb _); [done|].
  by destruct body.
Qed.

End DeleteItemHandler.

(** C5, as the code has it.  For a delete-item request whose context holds
    the caller's role:
    - role zero (no role in the token): 500, no deletion;
    - a nonzero role other than ShopEditor and SuperAdmin: 403, no deletion;
    - a nonzero role that is ShopEditor or SuperAdmin, with a request that
      decodes and validates: DeleteItem is called once, on the item of the
      request, and its storage is the outcome; 200 with the OK envelope if it
      reports no error, 422 if it reports one. *)
Theorem deleteItem_by_role
    (ShopEditor SuperAdmin : Z)
    (DeleteItem : postgres.Storage -> Z -> postgres.Storage * error)
    (ctx : Context) (body : http.Decoded deleteItem.Request)
    (storage : postgres.Storage) (role : Z) :
  http.as_int (ctx oauth.ScopeContext) = Some role ->
  let run := deleteItem.New ShopEditor SuperAdmin DeleteItem ctx body storage in
  (role = 0 ->
     http.status_code (http.events run.1) = Some 500 /\
     http.calls (http.events run.1) = [] /\ run.2 = storage)
  /\
  (role <> 0 -> role <> ShopEditor -> role <> SuperAdmin ->
     http.status_code (http.events run.1) = Some 403 /\
     http.calls (http.events run.1) = [] /\ run.2 = storage)
  /\
  (role <> 0 -> role = ShopEditor \/ role = SuperAdmin ->
   forall req, body = http.Filled req -> deleteItem.ItemID req <> 0 ->
     http.calls (http.events run.1) = [http.DeleteItem (deleteItem.ItemID req)] /\
     run.2 = (DeleteItem storage (deleteItem.ItemID req)).1 /\
     ((DeleteItem storage (deleteItem.ItemID req)).2 = None ->
        http.status_code (http.events run.1) = Some 200 /\
        http.body_written (http.events run.1) = Some (http.mkBody resp.OK [])) /\
     (forall err, (DeleteItem storage (deleteItem.ItemID req)).2 = Some err ->
        http.status_code (http.events run.1) = Some 422 /\
        http.body_written (http.events run.1) =
          Some (http.mkBody (resp.Error "failed to delete item from shop") []))).
Proof.
  intros Hrole run. subst run. split; [|split].
  - intros ->. by rewrite deleteItem_no_role.
  - intros Hnz Hse Hsa. by rewrite (deleteItem_denied _ _ _ _ _ _ role).
  - intros Hnz Hallowed req -> Hitem.
    rewrite (deleteItem_allowed _ _ _ _ _ _ role Hrole Hnz Hallowed).
    rewrite decide_False by exact Hitem.
    destruct (DeleteItem storage (deleteItem.ItemID req)) as [storage' [err|]];
      simpl; repeat split; done.
Qed.

Lemma deleteItem_by_role_witness :
  let run := deleteItem.New 2 3 DeleteItem_succeeds (scope_only 2)
               (http.Filled (deleteItem.mkRequest 41)) sample_storage in
  http.calls (http.events run.1) = [http.DeleteItem 41] /\
  http.status_code (http.events run.1) = Some 200 /\
  http.body_written (http.events run.1) = Some (http.mkBody resp.OK []).
Proof.
  destruct (deleteItem_by_role 2 3 DeleteItem_succeeds (scope_only 2)
              (http.Filled (deleteItem.mkRequest 41)) sample_storage 2 eq_refl)
    as (_ & _ & Hallowed).
  destruct (Hallowed ltac:(lia) ltac:(by left) _ eq_refl ltac:(simpl; lia))
    as (Hcalls & _ & Hok & _).
  destruct (Hok eq_refl) as [Hstatus Hbody].
  split; [exact Hcalls|]. split; [exact Hstatus | exact Hbody].
Defined.

(** The claim as the spec words it promises 403 for every role other than
    ShopEditor and SuperAdmin (and 200 for these two); a request whose role
    is zero is answered 500, whatever the two constants are. *)
Lemma deleteItem_role_zero_is_500 :
  exists role : Z,
    forall (ShopEditor SuperAdmin : Z)
           (DeleteItem : postgres.Storage -> Z -> postgres.Storage * error)
           (body : http.Decoded deleteItem.Request) (storage : postgres.Storage),
      http.status_code
        (http.events (deleteItem.New ShopEditor SuperAdmin DeleteItem
                        (scope_only role) body storage).1) = Some 500 /\
      Some 500 <> Some 403 /\ Some 500 <> Some 200.
Proof.
  exists 0. intros ShopEditor SuperAdmin DeleteItem body storage.
  rewrite deleteItem_no_role by reflexivity. done.
Qed.

(** C4, as the code has it.  A body that is empty or does not decode never
    reaches the domain operation: the login handler answers 400 and makes no
    call; the delete-item handler makes no call and leaves the storage
    alone, and answers 400 when the caller's role is nonzero and is
    ShopEditor or SuperAdmin (the role is tested before the body is
    read). *)
Theorem undecoded_body_never_reaches_the_domain
    (ShopEditor SuperAdmin : Z)
    (DeleteItem : postgres.Storage -> Z -> postgres.Storage * error)
    (UserAuth : postgres.Storage -> string -> string -> bool * error)
    (jwt_New : string * error)
    (ctx : Context) (storage : postgres.Storage)
    (delete_body : http.Decoded deleteItem.Request)
    (login_body : http.Decoded logIn.Request) :
  undecoded delete_body -> undecoded login_body ->
  let login_run := logIn.New UserAuth jwt_New login_body storage in
  let delete_run :=
    deleteItem.New ShopEditor SuperAdmin DeleteItem ctx delete_body storage in
  (http.status_code (http.events login_run) = Some 400 /\
   http.calls (http.events login_run) = [] /\
   http.outcome login_run = http.Returned)
  /\
  (http.calls (http.events delete_run.1) = [] /\ delete_run.2 = storage)
  /\
  (forall role, http.as_int (ctx oauth.ScopeContext) = Some role ->
     role <> 0 -> role = ShopEditor \/ role = SuperAdmin ->
     http.status_code (http.events delete_run.1) = Some 400 /\
     http.outcome delete_run.1 = http.Returned).
Proof.
  intros Hdelete Hlogin login_run delete_run. subst login_run delete_run.
  split; [|split].
  - by destruct login_body.
  - by apply deleteItem_undecoded_no_call.
  - intros role Hrole Hnz Hallowed.
    rewrite (deleteItem_allowed _ _ _ _ _ _ role Hrole Hnz Hallowed).
    by destruct delete_body.
Qed.

Lemma undecoded_body_never_reaches_the_domain_witness :
  let login_run := logIn.New UserAuth_accepts ("token", None) http.EOF sample_storage in
  let delete_run := deleteItem.New 2 3 DeleteItem_succeeds (scope_only 3)
                  (http.Malformed "unexpected end of JSON input") sample_storage in
  (http.status_code (http.events login_run) = Some 400 /\
   http.calls (http.events login_run) = [] /\
   http.outcome login_run = http.Returned)
  /\
  (http.calls (http.events delete_run.1) = [] /\ delete_run.2 = sample_storage)
  /\
  (http.status_code (http.events delete_run.1) = Some 400 /\
   http.outcome delete_run.1 = http.Returned).
Proof.
  destruct (undecoded_body_never_reaches_the_domain 2 3 DeleteItem_succeeds
              UserAuth_accepts ("token", None) (scope_only 3) sample_storage
              (http.Malformed "unexpected end of JSON input") http.EOF I I)
    as (Hlogin & Hdelete & Hstatus).
  split; [exact Hlogin|]. split; [exact Hdelete|].
  apply (Hstatus 3 eq_refl); [lia | by right].
Defined.

(** The claim as the spec words it promises 400 for every such body; the
    delete-item handler tests the role first, so an empty body is answered
    500 when the token carries no role and, whatever the two role constants
    are, 403 for some caller. *)
Lemma deleteItem_empty_body_not_400 :
  undecoded (@http.EOF deleteItem.Request) /\
  (forall (ShopEditor SuperAdmin : Z)
          (DeleteItem : postgres.Storage -> Z -> postgres.Storage * error)
          (storage : postgres.Storage),
     http.status_code
       (http.events (deleteItem.New ShopEditor SuperAdmin DeleteItem
                       (scope_only 0) http.EOF storage).1) = Some 500 /\
     exists role,
       http.status_code
         (http.events (deleteItem.New ShopEditor SuperAdmin DeleteItem
                         (scope_only role) http.EOF storage).1) = Some 403).
Proof.
  split; [exact I|].
  intros ShopEditor SuperAdmin DeleteItem storage. split.
  - by rewrite deleteItem_no_role.
  - exists (Z.abs ShopEditor + Z.abs SuperAdmin + 1).
    rewrite (deleteItem_denied _ _ _ _ _ _
               (Z.abs ShopEditor + Z.abs SuperAdmin + 1)); [done | done | lia..].
Qed.

(* ===================================================================== *)
(** ** The "me" handler *)
(* ===================================================================== *)

Section MeHandler.
Import http.

(** All three values present (a user id among the claims, a name that is
    not empty, a role that is not zero): the three are echoed in an OK
    envelope, with status 200. *)
Lemma me_New_echo (claims : gmap string Z) (userID : Z) (username : string)
    (role : Z) :
  claims !! "user_id" = Some userID -> username <> "" -> role <> 0 ->
  me.New (full_context claims username role) =
    Write (mkBody resp.OK
             [("user", JObject [("user_id", JInt userID);
                                ("username", JString username);
                                ("role", JInt role)])]) +> ret.
Proof.
  intros Hid Hname Hrole. unfold me.New. simpl. rewrite Hid.
  rewrite !decide_False by assumption. reflexivity.
Qed.

(** A value that is present but says nothing (no user id among the claims,
    an empty name, role zero): 500 with an error envelope. *)
Lemma me_New_empty_value (claims : gmap string Z) (username : string)
    (role : Z) :
  claims !! "user_id" = None \/ username = "" \/ role = 0 ->
  exists msg,
    me.New (full_context claims username role) =
      LogError msg +> WriteHeader 500 +> render_JSON (resp.Error msg) +> ret.
Proof.
  intros Hempty. unfold me.New. simpl.
  destruct (claims !! "user_id") as [userID|] eqn:Hid; [|by eexists].
  destruct (decide (username = "")); [by eexists|].
  destruct (decide (role = 0)); [by eexists|].
  destruct Hempty as [Hnone | [Hname | Hrole]]; [discriminate | done | done].
Qed.

(** A context value of another dynamic type than the handler asserts, or
    none at all: the first assertion that meets it panics. *)
Lemma me_New_claims_not_a_map (ctx : Context) :
  as_claims (ctx oauth.ClaimsContext) = None -> me.New ctx = panic.
Proof. intros Hclaims. unfold me.New. by rewrite Hclaims. Qed.

End MeHandler.

(** C6 at its failing inputs.  When one of the three values is absent from
    the request context, the handler panics at the type assertion that reads
    it: nothing is written, no status 500 and no error envelope. *)
Theorem me_New_absent_value_panics :
  me.New (λ _, http.nil) = http.panic /\
  me.New (λ k, match k with
               | oauth.ClaimsContext => http.of_claims {["user_id" := 7]}
               | oauth.CredentialContext => http.nil
               | oauth.ScopeContext => http.of_int 1
               end) = http.panic /\
  me.New (λ k, match k with
               | oauth.ClaimsContext => http.of_claims {["user_id" := 7]}
               | oauth.CredentialContext => http.of_string "alice"
               | oauth.ScopeContext => http.nil
               end) = http.panic /\
  http.status_code (http.events http.panic) = None /\
  http.outcome http.panic = http.Panicked.
Proof.
  split; [reflexivity|]. split; [by vm_compute|]. split; [by vm_compute|].
  split; reflexivity.
Qed.

(* ===================================================================== *)
(** ** The login handler *)
(* ===================================================================== *)

Section LogInHandler.
Import http.
Variable UserAuth : postgres.Storage -> string -> string -> bool * error.
Variable jwt_New : string * error.
Implicit Types (req : logIn.Request) (storage : postgres.Storage).

Lemma logIn_validate_ok req :
  logIn.Login req <> "" -> logIn.Password req <> "" -> logIn.validate req = [].
Proof.
  intros Hlogin Hpassword. unfold logIn.validate.
  by rewrite !decide_False by assumption.
Qed.

(** A request that decodes and validates: the password goes to the standard
    output, then the credential check is called, then the answer depends on
    the check alone. *)
Lemma logIn_New_validated req storage :
  logIn.Login req <> "" -> logIn.Password req <> "" ->
  logIn.New UserAuth jwt_New (Filled req) storage =
    LogInfo "request body decoded" +>
    Stdout (logIn.Password req) +>
    Call (http.UserAuth (logIn.Login req) (logIn.Password req)) +>
    match UserAuth storage (logIn.Login req) (logIn.Password req) with
    | (false, None) => WriteHeader 400 +> panic
    | (false, Some text) =>
        WriteHeader 400 +> render_JSON (resp.Error text) +> ret
    | (true, _) => Call JwtNew +> Write (logIn.Response resp.OK jwt_New.1) +> ret
    end.
Proof.
  intros Hlogin Hpassword. unfold logIn.New.
  rewrite logIn_validate_ok by assumption.
  by destruct (UserAuth storage _ _) as [[|] [text|]].
Qed.

End LogInHandler.

(** C2 at its failing input.  When the credential check of a well-formed
    login request fails with an error, the handler answers 400 with that
    error's own text as the message: whatever text the check produces is
    what the client reads, so two failures with different texts are answered
    differently.  A failure with a nil error panics after the header, and a
    successful login is answered 200 with whatever token the issuer gave,
    the empty one included. *)
Theorem logIn_failure_text_reaches_client
    (text : string) (storage : postgres.Storage) (jwt_New : string * error) :
  http.status_code
    (http.events (logIn.New (UserAuth_rejects text) jwt_New
                    (http.Filled alice) storage)) = Some 400 /\
  http.body_written
    (http.events (logIn.New (UserAuth_rejects text) jwt_New
                    (http.Filled alice) storage)) =
    Some (http.mkBody (resp.Error text) []) /\
  logIn.New (UserAuth_rejects "user not found") jwt_New
    (http.Filled alice) storage <>
  logIn.New (UserAuth_rejects "bad password") jwt_New
    (http.Filled alice) storage /\
  http.outcome (logIn.New UserAuth_rejects_nil jwt_New
                  (http.Filled alice) storage) = http.Panicked /\
  http.body_written
    (http.events (logIn.New UserAuth_accepts ("", Some "jwt: signing failed")
                    (http.Filled alice) storage)) =
    Some (logIn.Response resp.OK "").
Proof.
  split; [reflexivity|]. split; [reflexivity|]. split; [discriminate|].
  split; reflexivity.
Qed.

(** C10.  For a login request that decodes and validates (login and
    password not empty), whatever the credential check and the token issuer
    answer: the handler writes the password, as it is, to the standard
    output, and the call of the credential check comes right after it. *)
Theorem logIn_prints_password_before_UserAuth
    (UserAuth : postgres.Storage -> string -> string -> bool * error)
    (jwt_New : string * error) (req : logIn.Request)
    (storage : postgres.Storage) :
  logIn.Login req <> "" -> logIn.Password req <> "" ->
  exists rest : list http.Event,
    http.events (logIn.New UserAuth jwt_New (http.Filled req) storage) =
      [http.LogInfo "request body decoded";
       http.Stdout (logIn.Password req);
       http.Call (http.UserAuth (logIn.Login req) (logIn.Password req))]
      ++ rest /\
    http.stdout
      (http.events (logIn.New UserAuth jwt_New (http.Filled req) storage)) =
      [logIn.Password req] /\
    http.UserAuth (logIn.Login req) (logIn.Password req)
      ∈ http.calls
          (http.events (logIn.New UserAuth jwt_New (http.Filled req) storage)).
Proof.
  intros Hlogin Hpassword.
  rewrite logIn_New_validated by assumption.
  destruct (UserAuth storage _ _) as [[|] [text|]]; simpl;
    eexists; (split; [reflexivity|]); (split; [reflexivity | by left]).
Qed.

Lemma logIn_prints_password_before_UserAuth_witness :
  exists rest : list http.Event,
    http.events
      (logIn.New (UserAuth_rejects "bad password") ("", None)
         (http.Filled alice) sample_storage) =
      [http.LogInfo "request body decoded";
       http.Stdout "secret";
       http.Call (http.UserAuth "alice" "secret")] ++ rest /\
    http.stdout
      (http.events
         (logIn.New (UserAuth_rejects "bad password") ("", None)
            (http.Filled alice) sample_storage)) = ["secret"] /\
    http.UserAuth "alice" "secret"
      ∈ http.calls
          (http.events
             (logIn.New (UserAuth_rejects "bad password") ("", None)
                (http.Filled alice) sample_storage)).
Proof.
  apply (logIn_prints_password_before_UserAuth
           (UserAuth_rejects "bad password") ("", None) alice sample_storage);
    discriminate.
Defined.

(* ===================================================================== *)
(** ** More on the reservation storage *)
(* ===================================================================== *)

Section OverlapsMore.
Implicit Types s e : pg.Timestamp.

(** Every pair overlaps itself, proper or not. *)
Lemma OVERLAPS_refl s e : pg.OVERLAPS s e s e = true.
Proof.
  unfold pg.OVERLAPS. destruct (pg.ordered s e) as [ts te].
  destruct (Z.gtb_spec ts ts); [lia|].
  destruct (Z.ltb_spec ts ts); [lia | reflexivity].
Qed.

End OverlapsMore.

Section Writes.
Import schema.
Implicit Types (storage : postgres.Storage) (start finish : pg.Timestamp).

(** What a successful InsertReservation has done. *)
Lemma InsertReservation_success storage placeID userID start finish storage' :
  reservation.InsertReservation storage placeID userID start finish =
    (storage', None) ->
  (forall r, r ∈ reservation_tbl (postgres.DB storage) ->
             ¬ sql.where_place_taken placeID start finish r) /\
  storage' =
    postgres.mkStorage
      (sql.InsertReservation (postgres.DB storage) placeID userID start finish)
      (postgres.refuses storage).
Proof.
  unfold reservation.InsertReservation, postgres.Query, postgres.Exec.
  destruct (postgres.refuses storage postgres.qrGetIsPlaceAvailable); [done|].
  unfold sql.GetIsPlaceAvailable.
  destruct (filter _ _) as [|r0 rows] eqn:Hfilter; [|done].
  destruct (postgres.refuses storage postgres.qrInsertReservation); [done|].
  intros [= <-]. split; [|reflexivity].
  intros r Hr Htaken.
  by eapply (filter_nil_not_elem_of _ _ r Hfilter).
Qed.

(** With a driver that refuses nothing, a place that is free for the
    interval can be booked. *)
Lemma InsertReservation_when_free storage placeID userID start finish :
  postgres.healthy storage ->
  (forall r, r ∈ reservation_tbl (postgres.DB storage) ->
             ¬ sql.where_place_taken placeID start finish r) ->
  (reservation.InsertReservation storage placeID userID start finish).2 = None.
Proof.
  intros Hdrv Hfree.
  unfold reservation.InsertReservation, postgres.Query, postgres.Exec.
  rewrite !Hdrv. unfold sql.GetIsPlaceAvailable.
  by rewrite (filter_none (sql.where_place_taken placeID start finish))
    by exact Hfree.
Qed.

End Writes.

(** The two halves put together are the function. *)
Lemma InsertReservation_in_two_steps
    (storage : postgres.Storage) (placeID userID : Z)
    (start finish : pg.Timestamp) :
  reservation.InsertReservation storage placeID userID start finish =
    match InsertReservation_check storage placeID start finish with
    | Some err => (storage, Some err)
    | None => InsertReservation_exec storage placeID userID start finish
    end.
Proof.
  unfold reservation.InsertReservation, InsertReservation_check,
    InsertReservation_exec.
  destruct (postgres.Query storage postgres.qrGetIsPlaceAvailable _)
    as [[|r rows] | err]; reflexivity.
Qed.

(** X2.  One call at a time, with a driver that refuses nothing,
    InsertReservation keeps the table free of double bookings.  The check
    and the insert are two round trips, though: when two calls for the same
    place and interval have both run their check before either runs its
    insert, both inserts succeed and the table holds two rows of the place
    that overlap. *)
Theorem InsertReservation_keeps_no_double_booking
    (storage : postgres.Storage) (placeID userID : Z)
    (start finish : pg.Timestamp) :
  postgres.healthy storage ->
  (no_double_booking (schema.reservation_tbl (postgres.DB storage)) ->
   no_double_booking
     (schema.reservation_tbl
        (postgres.DB
           (reservation.InsertReservation storage placeID userID start finish).1)))
  /\
  (forall userID',
     InsertReservation_check storage placeID start finish = None ->
     exists storage1 storage2 (i j : nat) (ri rj : schema.reservation.row),
       InsertReservation_exec storage placeID userID start finish
         = (storage1, None) /\
       InsertReservation_exec storage1 placeID userID' start finish
         = (storage2, None) /\
       (i < j)%nat /\
       schema.reservation_tbl (postgres.DB storage2) !! i = Some ri /\
       schema.reservation_tbl (postgres.DB storage2) !! j = Some rj /\
       schema.reservation.place_id ri = schema.reservation.place_id rj /\
       pg.OVERLAPS
         (schema.reservation.start ri) (schema.reservation.finish ri)
         (schema.reservation.start rj) (schema.reservation.finish rj)
       = true).
Proof.
  intros Hdrv. split.
  - intros Hinv.
    destruct (reservation.InsertReservation storage placeID userID start finish)
      as [storage' [err|]] eqn:Hcall.
    + pose proof (InsertReservation_error_keeps_storage
                    storage placeID userID start finish err) as Hsame.
      rewrite Hcall in Hsame. simpl in *. by rewrite Hsame.
    + apply InsertReservation_success in Hcall as [Hfree ->]. simpl.
      intros i j ri rj Hij Hi Hj Hplace.
      apply lookup_app_Some in Hj as [Hj | [Hlen Hj]].
      * apply lookup_app_Some in Hi as [Hi | [Hlen' _]].
        -- by apply (Hinv i j).
        -- apply lookup_lt_Some in Hj. lia.
      * apply list_lookup_singleton_Some in Hj as [Hj0 <-].
        apply lookup_app_Some in Hi as [Hi | [Hlen' Hi]].
        -- destruct (pg.OVERLAPS _ _ _ _) eqn:Hover; [|reflexivity].
           exfalso. apply (Hfree ri); [by apply (list_elem_of_lookup_2 _ i)|].
           split; [exact Hplace | exact Hover].
        -- apply list_lookup_singleton_Some in Hi as [Hi _]. lia.
  - intros userID' _.
    pose (storage1 :=
            postgres.mkStorage
              (sql.InsertReservation (postgres.DB storage)
                 placeID userID start finish)
              (postgres.refuses storage)).
    pose (storage2 :=
            postgres.mkStorage
              (sql.InsertReservation (postgres.DB storage1)
                 placeID userID' start finish)
              (postgres.refuses storage)).
    assert (Hfirst : InsertReservation_exec storage placeID userID start finish
                     = (storage1, None)).
    { unfold InsertReservation_exec, postgres.Exec. by rewrite Hdrv. }
    assert (Hsecond : InsertReservation_exec storage1 placeID userID'
                        start finish = (storage2, None)).
    { unfold InsertReservation_exec, postgres.Exec. simpl. by rewrite Hdrv. }
    exists storage1, storage2,
      (length (schema.reservation_tbl (postgres.DB storage))),
      (S (length (schema.reservation_tbl (postgres.DB storage)))).
    eexists _, _.
    split; [exact Hfirst|]. split; [exact Hsecond|]. split; [lia|]. simpl.
    split.
    { rewrite lookup_app_l by (rewrite length_app; simpl; lia).
      rewrite lookup_app_r by lia.
      by rewrite Nat.sub_diag. }
    split.
    { rewrite lookup_app_r by (rewrite length_app; simpl; lia).
      rewrite length_app. simpl.
      by replace (S (length (schema.reservation_tbl (postgres.DB storage))) -
                  (length (schema.reservation_tbl (postgres.DB storage)) + 1))%nat
        with 0%nat by lia. }
    split; [reflexivity | apply OVERLAPS_refl].
Qed.

Lemma InsertReservation_keeps_no_double_booking_witness :
  no_double_booking (schema.reservation_tbl (postgres.DB booked_storage)) /\
  (reservation.InsertReservation booked_storage 1 9 20000 30000).2 = None /\
  no_double_booking
    (schema.reservation_tbl
       (postgres.DB
          (reservation.InsertReservation booked_storage 1 9 20000 30000).1)).
Proof.
  assert (Hinv : no_double_booking
                   (schema.reservation_tbl (postgres.DB booked_storage))).
  { intros [|[|i]] [|[|j]] ri rj Hij Hi Hj _; simplify_eq/=;
      solve [lia | reflexivity]. }
  assert (Hdrv : postgres.healthy booked_storage) by (intros q; reflexivity).
  split; [exact Hinv|]. split; [reflexivity|].
  exact (proj1 (InsertReservation_keeps_no_double_booking
                  booked_storage 1 9 20000 30000 Hdrv) Hinv).
Defined.

(** X3.  UpdateReservation does not: with a driver that refuses nothing, giving a
    stored reservation the place and the interval of another stored
    reservation succeeds and leaves two rows of one place that overlap. *)
Theorem UpdateReservation_can_double_book
    (storage : postgres.Storage) (i j : nat)
    (ri rj : schema.reservation.row) :
  postgres.healthy storage ->
  (i < j)%nat ->
  schema.reservation_tbl (postgres.DB storage) !! i = Some ri ->
  schema.reservation_tbl (postgres.DB storage) !! j = Some rj ->
  schema.reservation.reservation_id ri <> schema.reservation.reservation_id rj ->
  exists (storage' : postgres.Storage) (rj' : schema.reservation.row),
    reservation.UpdateReservation storage
      (schema.reservation.reservation_id rj) (schema.reservation.place_id ri)
      (schema.reservation.start ri) (schema.reservation.finish ri)
    = (storage', None) /\
    schema.reservation_tbl (postgres.DB storage') !! i = Some ri /\
    schema.reservation_tbl (postgres.DB storage') !! j = Some rj' /\
    schema.reservation.reservation_id rj' = schema.reservation.reservation_id rj /\
    schema.reservation.place_id ri = schema.reservation.place_id rj' /\
    pg.OVERLAPS (schema.reservation.start ri) (schema.reservation.finish ri)
                (schema.reservation.start rj') (schema.reservation.finish rj')
    = true.
Proof.
  intros Hdrv Hij Hi Hj Hid.
  unfold reservation.UpdateReservation, postgres.Exec. rewrite Hdrv.
  eexists _, _. split; [reflexivity|]. simpl.
  rewrite !list_lookup_fmap, Hi, Hj. simpl.
  rewrite set_reservation_other by exact Hid.
  split; [reflexivity|]. split; [reflexivity|].
  unfold sql.set_reservation. rewrite decide_True by reflexivity. simpl.
  split; [reflexivity|]. split; [reflexivity|]. apply OVERLAPS_refl.
Qed.

Lemma UpdateReservation_can_double_book_witness :
  exists (storage' : postgres.Storage) (rj' : schema.reservation.row),
    reservation.UpdateReservation sample_storage 3 1 10000 20000
    = (storage', None) /\
    schema.reservation_tbl (postgres.DB storage') !! 0%nat =
      Some (schema.reservation.mk 1 1 10000 20000 7) /\
    schema.reservation_tbl (postgres.DB storage') !! 2%nat = Some rj' /\
    schema.reservation.reservation_id rj' = 3 /\
    1 = schema.reservation.place_id rj' /\
    pg.OVERLAPS 10000 20000
      (schema.reservation.start rj') (schema.reservation.finish rj') = true.
Proof.
  apply (UpdateReservation_can_double_book sample_storage 0 2
           (schema.reservation.mk 1 1 10000 20000 7)
           (schema.reservation.mk 3 3 15000 25000 9)).
  - intros q. reflexivity.
  - lia.
  - reflexivity.
  - reflexivity.
  - simpl. lia.
Defined.

(** X4.  A reservation that was inserted is listed for its user, with the id the
    sequence gave it; the listings of the other users are what they were. *)
Theorem InsertReservation_then_listed
    (storage storage' : postgres.Storage) (placeID userID : Z)
    (start finish : pg.Timestamp) :
  postgres.healthy storage ->
  reservation.InsertReservation storage placeID userID start finish =
    (storage', None) ->
  reservation.Reservation.mk
    (schema.reservation_id_seq (postgres.DB storage)) placeID start finish 0
    ∈ (reservation.GetReservationsByUserID storage' userID).1 /\
  (reservation.GetReservationsByUserID storage' userID).2 = None /\
  (forall other, other <> userID ->
     reservation.GetReservationsByUserID storage' other =
     reservation.GetReservationsByUserID storage other).
Proof.
  intros Hdrv Hcall.
  apply InsertReservation_success in Hcall as [_ ->].
  unfold reservation.GetReservationsByUserID, postgres.Query. simpl.
  rewrite !Hdrv. unfold sql.GetReservationsByUserID. simpl.
  split; [|split; [reflexivity|]].
  - rewrite <- list_fmap_compose.
    apply list_elem_of_fmap.
    exists (schema.reservation.mk
              (schema.reservation_id_seq (postgres.DB storage))
              placeID start finish userID).
    split; [reflexivity|].
    rewrite merge_sort_Permutation, list_elem_of_filter, elem_of_app.
    split; [reflexivity | right; by left].
  - intros other Hother.
    rewrite filter_app, filter_cons_False, filter_nil, app_nil_r by done.
    reflexivity.
Qed.

Lemma InsertReservation_then_listed_witness :
  reservation.Reservation.mk 1 1 0 1000 0
    ∈ (reservation.GetReservationsByUserID
         (reservation.InsertReservation lone_place_storage 1 7 0 1000).1 7).1.
Proof.
  apply (InsertReservation_then_listed lone_place_storage _ 1 7 0 1000).
  - intros q. reflexivity.
  - reflexivity.
Defined.

(** X5.  The same place and interval cannot be booked twice: after a successful
    InsertReservation, a second one for the same place and interval, by
    whichever user, fails with "place is already taken" and changes
    nothing.  This holds for every pair of timestamps, since every pair
    overlaps itself. *)
Theorem InsertReservation_twice_is_refused
    (storage storage' : postgres.Storage) (placeID userID userID' : Z)
    (start finish : pg.Timestamp) :
  postgres.healthy storage ->
  reservation.InsertReservation storage placeID userID start finish =
    (storage', None) ->
  reservation.InsertReservation storage' placeID userID' start finish =
    (storage',
     Some (Errorf "storage.postgres.entities.reservation.InsertReservation"
                  "place is already taken")).
Proof.
  intros Hdrv Hcall.
  apply InsertReservation_success in Hcall as [_ ->].
  unfold reservation.InsertReservation at 1, postgres.Query. simpl.
  rewrite Hdrv. unfold sql.GetIsPlaceAvailable. simpl.
  destruct (filter_some (sql.where_place_taken placeID start finish)
              (schema.reservation_tbl (postgres.DB storage) ++
                 [schema.reservation.mk
                    (schema.reservation_id_seq (postgres.DB storage))
                    placeID start finish userID])
              (schema.reservation.mk
                 (schema.reservation_id_seq (postgres.DB storage))
                 placeID start finish userID))
    as (y & k & ->).
  - apply elem_of_app. right. by left.
  - split; [reflexivity | apply OVERLAPS_refl].
  - reflexivity.
Qed.

Lemma InsertReservation_twice_is_refused_witness :
  reservation.InsertReservation
    (reservation.InsertReservation lone_place_storage 1 7 0 1000).1 1 8 0 1000 =
    ((reservation.InsertReservation lone_place_storage 1 7 0 1000).1,
     Some "storage.postgres.entities.reservation.InsertReservation: place is already taken").
Proof.
  apply (InsertReservation_twice_is_refused lone_place_storage _ 1 7 8 0 1000).
  - intros q. reflexivity.
  - reflexivity.
Defined.

Lemma HasUserReservationInDateRange_healthy
    (storage : postgres.Storage) (userID : Z) (start finish : pg.Timestamp) :
  postgres.healthy storage ->
  (reservation.HasUserReservationInDateRange storage userID start finish).2
    = None /\
  ((reservation.HasUserReservationInDateRange storage userID start finish).1
     = true <->
   exists r, r ∈ schema.reservation_tbl (postgres.DB storage) /\
             sql.where_user_in_range userID start finish r).
Proof.
  unfold reservation.HasUserReservationInDateRange, postgres.Query.
  intros Hdrv. rewrite Hdrv. unfold sql.GetUserReservationInDateRange.
  destruct (filter (sql.where_user_in_range userID start finish)
              (schema.reservation_tbl (postgres.DB storage)))
    as [|r0 rows] eqn:Hfilter; simpl.
  - split; [reflexivity|]. split; [done|].
    intros (r & Hr & Hrange).
    by destruct (filter_nil_not_elem_of _ _ r Hfilter Hrange).
  - split; [reflexivity|]. split; [|done]. intros _. exists r0.
    assert (Hin : r0 ∈ filter (sql.where_user_in_range userID start finish)
                    (schema.reservation_tbl (postgres.DB storage)))
      by (rewrite Hfilter; by left).
    apply list_elem_of_filter in Hin. tauto.
Qed.

(** X6.  HasUserReservationInDateRange, with a driver that refuses nothing,
    answers true exactly when a stored reservation of the user passes the
    OVERLAPS test with the range, and never with an error; when the driver
    refuses, it answers false together with the wrapped error. *)
Theorem HasUserReservationInDateRange_iff
    (storage : postgres.Storage) (userID : Z) (start finish : pg.Timestamp) :
  (postgres.healthy storage ->
   (reservation.HasUserReservationInDateRange storage userID start finish).2
     = None /\
   ((reservation.HasUserReservationInDateRange storage userID start finish).1
      = true <->
    exists r, r ∈ schema.reservation_tbl (postgres.DB storage) /\
              sql.where_user_in_range userID start finish r))
  /\
  (forall err,
     postgres.refuses storage postgres.qrGetUserReservationInDateRange
       = Some err ->
     reservation.HasUserReservationInDateRange storage userID start finish =
       (false,
        Some (Errorf
                "storage.postgres.entities.reservation.HasUserReservationInDateRange"
                err))).
Proof.
  split.
  - apply HasUserReservationInDateRange_healthy.
  - intros err Herr.
    unfold reservation.HasUserReservationInDateRange, postgres.Query.
    by rewrite Herr.
Qed.

(** X7.  After a user's reservation was inserted, HasUserReservationInDateRange
    for that user and the same range answers true. *)
Theorem InsertReservation_then_HasUserReservation
    (storage storage' : postgres.Storage) (placeID userID : Z)
    (start finish : pg.Timestamp) :
  postgres.healthy storage ->
  reservation.InsertReservation storage placeID userID start finish =
    (storage', None) ->
  reservation.HasUserReservationInDateRange storage' userID start finish =
    (true, None).
Proof.
  intros Hdrv Hcall.
  apply InsertReservation_success in Hcall as [_ ->].
  assert (Hdrv' : postgres.healthy
            (postgres.mkStorage
               (sql.InsertReservation (postgres.DB storage)
                  placeID userID start finish)
               (postgres.refuses storage))) by exact Hdrv.
  destruct (HasUserReservationInDateRange_healthy
              (postgres.mkStorage
                 (sql.InsertReservation (postgres.DB storage)
                    placeID userID start finish)
                 (postgres.refuses storage)) userID start finish Hdrv')
    as [Hnil Htrue].
  destruct (reservation.HasUserReservationInDateRange _ _ _ _) as [b e].
  simpl in *. subst e. f_equal. apply Htrue.
  exists (schema.reservation.mk
            (schema.reservation_id_seq (postgres.DB storage))
            placeID start finish userID).
  split.
  - apply elem_of_app. right. by left.
  - split; [reflexivity | apply OVERLAPS_refl].
Qed.

Lemma InsertReservation_then_HasUserReservation_witness :
  reservation.HasUserReservationInDateRange
    (reservation.InsertReservation lone_place_storage 1 7 0 1000).1 7 0 1000 =
    (true, None).
Proof.
  apply (InsertReservation_then_HasUserReservation
           lone_place_storage _ 1 7 0 1000).
  - intros q. reflexivity.
  - reflexivity.
Defined.

Lemma HasUserReservationInDateRange_iff_witness :
  postgres.healthy sample_storage /\
  reservation.HasUserReservationInDateRange sample_storage 9 16000 17000
    = (true, None) /\
  reservation.HasUserReservationInDateRange sample_storage 7 20000 30000
    = (false, None) /\
  reservation.HasUserReservationInDateRange broken_storage 9 16000 17000 =
    (false,
     Some "storage.postgres.entities.reservation.HasUserReservationInDateRange: driver: bad connection").
Proof.
  assert (Hdrv : postgres.healthy sample_storage) by (intros q; reflexivity).
  split; [exact Hdrv|].
  split; [reflexivity|]. split; [reflexivity|].
  exact (proj2 (HasUserReservationInDateRange_iff broken_storage 9 16000 17000)
           "driver: bad connection" eq_refl).
Defined.

(* ===================================================================== *)
(** ** GetPlaceName *)
(* ===================================================================== *)

Section PlaceName.
Import schema.

(** Scanning names into the receiver touches its Name only. *)
Lemma foldl_set_Name_frame (names : list string) (p : reservation.Place.t) :
  reservation.Place.PlaceID (foldl reservation.set_Name p names) =
    reservation.Place.PlaceID p /\
  reservation.Place.Phone (foldl reservation.set_Name p names) =
    reservation.Place.Phone p /\
  reservation.Place.Internet (foldl reservation.set_Name p names) =
    reservation.Place.Internet p /\
  reservation.Place.SecondScreen (foldl reservation.set_Name p names) =
    reservation.Place.SecondScreen p.
Proof.
  revert p. induction names as [|name names IH]; intros p; [done|].
  simpl. destruct (IH (reservation.set_Name p name)) as (H1 & H2 & H3 & H4).
  rewrite H1, H2, H3, H4. done.
Qed.

End PlaceName.

(** X8.  GetPlaceName does not report an unknown place: with a driver that
    refuses nothing, a place_id that no stored place has gives a nil error
    and the receiver as it was, its old Name included.  When place_id is a
    key of the table and a stored place has the id, the receiver gets that
    place's name.  In every case, whatever the driver does, the receiver's
    PlaceID, Phone, Internet and SecondScreen are left as they were. *)
Theorem GetPlaceName_found_or_silent
    (p : reservation.Place.t) (storage : postgres.Storage) (placeID : Z) :
  (postgres.healthy storage ->
   (forall row, row ∈ schema.place_tbl (postgres.DB storage) ->
                schema.place.place_id row <> placeID) ->
   reservation.GetPlaceName p storage placeID = (p, None))
  /\
  (postgres.healthy storage ->
   NoDup (schema.place.place_id <$> schema.place_tbl (postgres.DB storage)) ->
   forall row, row ∈ schema.place_tbl (postgres.DB storage) ->
               schema.place.place_id row = placeID ->
   reservation.GetPlaceName p storage placeID =
     (reservation.set_Name p (schema.place.name row), None))
  /\
  (reservation.Place.PlaceID (reservation.GetPlaceName p storage placeID).1 =
     reservation.Place.PlaceID p /\
   reservation.Place.Phone (reservation.GetPlaceName p storage placeID).1 =
     reservation.Place.Phone p /\
   reservation.Place.Internet (reservation.GetPlaceName p storage placeID).1 =
     reservation.Place.Internet p /\
   reservation.Place.SecondScreen (reservation.GetPlaceName p storage placeID).1 =
     reservation.Place.SecondScreen p).
Proof.
  unfold reservation.GetPlaceName, postgres.Query. split; [|split].
  - intros Hdrv Hnone. rewrite Hdrv. unfold sql.GetNameByPlaceID.
    rewrite (filter_none (λ row, schema.place.place_id row = placeID))
      by exact Hnone.
    reflexivity.
  - intros Hdrv Hkey row Hrow Hid. rewrite Hdrv. unfold sql.GetNameByPlaceID.
    rewrite (filter_the_one (λ row, schema.place.place_id row = placeID)
               _ row).
    + reflexivity.
    + eapply NoDup_fmap_1. exact Hkey.
    + intros row'. split.
      * intros [Hrow' Hid'].
        apply (key_identifies schema.place.place_id _ row' row Hkey Hrow' Hrow).
        congruence.
      * by intros ->.
  - destruct (postgres.refuses storage postgres.qrGetNameByPlaceID); [done|].
    apply foldl_set_Name_frame.
Qed.

Lemma GetPlaceName_found_or_silent_witness :
  reservation.GetPlaceName (reservation.Place.mk 0 "old" "" "" "")
    sample_storage 99 = (reservation.Place.mk 0 "old" "" "" "", None) /\
  reservation.GetPlaceName (reservation.Place.mk 0 "old" "" "" "")
    sample_storage 1 = (reservation.Place.mk 0 "A" "" "" "", None).
Proof.
  assert (Hdrv : postgres.healthy sample_storage) by (intros q; reflexivity).
  destruct (GetPlaceName_found_or_silent
              (reservation.Place.mk 0 "old" "" "" "") sample_storage 99)
    as (Hsilent & _ & _).
  destruct (GetPlaceName_found_or_silent
              (reservation.Place.mk 0 "old" "" "" "") sample_storage 1)
    as (_ & Hfound & _).
  split.
  - apply Hsilent; [exact Hdrv|].
    intros row Hrow. simpl in Hrow.
    repeat (apply elem_of_cons in Hrow as [-> | Hrow]);
      [simpl; lia.. | by apply not_elem_of_nil in Hrow].
  - apply (Hfound Hdrv) with (row := schema.place.mk 1 "A" (Some "555")).
    + apply (bool_decide_unpack _). by vm_compute.
    + right. by left.
    + reflexivity.
Defined.

(* ===================================================================== *)
(** ** More on the availability query *)
(* ===================================================================== *)

Section ActualPlacesMore.
Import schema.
Variables (db : Database) (q_start q_finish : pg.Timestamp).

Lemma as_available_same_place (p p' : place.row) :
  sql.as_available p = sql.as_available p' ->
  place.place_id p = place.place_id p' /\ place_of p = place_of p'.
Proof.
  intros Heq. injection Heq as Hid Hname Hphone.
  split; [exact Hid|]. unfold place_of.
  unfold pg.COALESCE in Hphone. by rewrite Hid, Hname, Hphone.
Qed.

(** A place without an overlapping reservation has its available row. *)
Lemma free_place_row (p : place.row) :
  p ∈ place_tbl db ->
  (forall r, r ∈ reservation_tbl db ->
             ¬ sql.where_place_taken (place.place_id p) q_start q_finish r) ->
  sql.as_available p ∈ sql.GetActualPlaces db q_start q_finish.
Proof.
  intros Hp Hfree. apply elem_of_GetActualPlaces. left.
  exists p. split; [exact Hp|]. split; [reflexivity|].
  intros [p' r] Hpr Heq. simpl in Heq.
  apply elem_of_overlapping in Hpr as (_ & Hr & Hover).
  apply as_available_same_place in Heq as [Hid _].
  rewrite <- Hid in Hover. by destruct (Hfree r Hr).
Qed.

(** A row marked available is the row of a stored place none of whose
    reservations overlaps the query. *)
Lemma available_row_free (x : sql.actual.row) :
  x ∈ sql.GetActualPlaces db q_start q_finish ->
  sql.actual.is_available x = true ->
  exists p, p ∈ place_tbl db /\ x = sql.as_available p /\
    forall r, r ∈ reservation_tbl db ->
      ¬ sql.where_place_taken (place.place_id p) q_start q_finish r.
Proof.
  intros Hx Havailable.
  apply elem_of_GetActualPlaces in Hx
    as [(p & Hp & -> & Hnot) | (pr & _ & ->)]; [|done].
  exists p. split; [exact Hp|]. split; [reflexivity|].
  intros r Hr Hover. apply (Hnot (p, r)); [|reflexivity].
  by apply elem_of_overlapping.
Qed.

(** A row marked taken carries a stored place and one of its overlapping
    reservations. *)
Lemma taken_row_reservation (x : sql.actual.row) :
  x ∈ sql.GetActualPlaces db q_start q_finish ->
  sql.actual.is_available x = false ->
  exists p r, p ∈ place_tbl db /\ r ∈ reservation_tbl db /\
    sql.where_place_taken (place.place_id p) q_start q_finish r /\
    x = sql.as_taken (p, r).
Proof.
  intros Hx Htaken.
  apply elem_of_GetActualPlaces in Hx
    as [(p & _ & -> & _) | ([p r] & Hpr & ->)]; [done|].
  apply elem_of_overlapping in Hpr as (Hp & Hr & Hover).
  by exists p, r.
Qed.

End ActualPlacesMore.

(** X9.  With a driver that refuses nothing, GetActualPlaces answers about the
    stored places and about nothing else: every stored place has an entry
    with its place_id, name and phone (an absent phone as the empty text),
    and every entry carries the place_id, name and phone of a stored place;
    Internet and SecondScreen are never filled. *)
Theorem GetActualPlaces_covers_the_places
    (storage : postgres.Storage) (properties : string)
    (q_start q_finish : pg.Timestamp) :
  postgres.healthy storage ->
  (forall p, p ∈ schema.place_tbl (postgres.DB storage) ->
     exists ap,
       ap ∈ (reservation.GetActualPlaces storage properties q_start q_finish).1 /\
       reservation.ActualPlace.Place ap = place_of p)
  /\
  (forall ap,
     ap ∈ (reservation.GetActualPlaces storage properties q_start q_finish).1 ->
     exists p, p ∈ schema.place_tbl (postgres.DB storage) /\
               reservation.ActualPlace.Place ap = place_of p).
Proof.
  intros Hdrv. unfold reservation.GetActualPlaces, postgres.Query.
  rewrite Hdrv. simpl. split.
  - intros p Hp.
    destruct (decide
      (sql.as_available p ∈
         (λ pr : schema.place.row * schema.reservation.row,
            sql.as_available pr.1)
         <$> filter (sql.where_actual q_start q_finish)
               (schema.place_and_reservation (postgres.DB storage))))
      as [Hin | Hout].
    + apply list_elem_of_fmap in Hin as ([p' r] & Heq & Hpr). simpl in Heq.
      exists (reservation.scan_actual (sql.as_taken (p', r))). split.
      * apply list_elem_of_fmap_2, elem_of_GetActualPlaces. right.
        by exists (p', r).
      * apply as_available_same_place in Heq as [_ Heq]. by rewrite Heq.
    + exists (reservation.scan_actual (sql.as_available p)). split; [|done].
      apply list_elem_of_fmap_2, elem_of_GetActualPlaces. left.
      exists p. split; [exact Hp|]. split; [reflexivity|].
      intros pr Hpr Heq. apply Hout, list_elem_of_fmap. by exists pr.
  - intros ap (x & -> & Hx)%list_elem_of_fmap.
    apply elem_of_GetActualPlaces in Hx
      as [(p & Hp & -> & _) | ([p r] & Hpr & ->)].
    + by exists p.
    + apply elem_of_overlapping in Hpr as (Hp & _). by exists p.
Qed.

Lemma GetActualPlaces_covers_the_places_witness :
  exists ap,
    ap ∈ (reservation.GetActualPlaces sample_storage "" 12000 16000).1 /\
    reservation.ActualPlace.Place ap = place_of (schema.place.mk 3 "C" None).
Proof.
  apply (GetActualPlaces_covers_the_places sample_storage "" 12000 16000).
  - intros q. reflexivity.
  - right. right. by left.
Defined.

(** X10.  The availability flag of GetActualPlaces tells the truth: an entry
    marked available belongs to a place none of whose stored reservations
    passes the OVERLAPS test with the query interval, and an entry marked
    unavailable carries the user_id, start and finish (in Unix
    milliseconds) of a stored reservation of its place that does. *)
Theorem GetActualPlaces_flag_is_truthful
    (storage : postgres.Storage) (properties : string)
    (q_start q_finish : pg.Timestamp) (ap : reservation.ActualPlace.t) :
  postgres.healthy storage ->
  ap ∈ (reservation.GetActualPlaces storage properties q_start q_finish).1 ->
  (reservation.ActualPlace.IsAvailable ap = true ->
     forall r, r ∈ schema.reservation_tbl (postgres.DB storage) ->
       ¬ sql.where_place_taken (reservation.ActualPlace.PlaceID ap)
           q_start q_finish r)
  /\
  (reservation.ActualPlace.IsAvailable ap = false ->
     exists r, r ∈ schema.reservation_tbl (postgres.DB storage) /\
       sql.where_place_taken (reservation.ActualPlace.PlaceID ap)
         q_start q_finish r /\
       reservation.ActualPlace.UserID ap = schema.reservation.user_id r /\
       reservation.ActualPlace.Start ap = schema.reservation.start r / 1000 /\
       reservation.ActualPlace.Finish ap = schema.reservation.finish r / 1000).
Proof.
  intros Hdrv. unfold reservation.GetActualPlaces, postgres.Query.
  rewrite Hdrv. simpl.
  intros (x & -> & Hx)%list_elem_of_fmap. split.
  - intros Havailable.
    destruct (available_row_free _ _ _ x Hx Havailable) as (p & _ & -> & Hfree).
    exact Hfree.
  - intros Htaken.
    destruct (taken_row_reservation _ _ _ x Hx Htaken)
      as (p & r & _ & Hr & Hover & ->).
    by exists r.
Qed.

Lemma GetActualPlaces_flag_is_truthful_witness :
  exists r, r ∈ schema.reservation_tbl (postgres.DB sample_storage) /\
    sql.where_place_taken 1 12000 16000 r /\
    7 = schema.reservation.user_id r /\
    10 = schema.reservation.start r / 1000 /\
    20 = schema.reservation.finish r / 1000.
Proof.
  apply (GetActualPlaces_flag_is_truthful sample_storage "" 12000 16000
           (taken_place (schema.place.mk 1 "A" (Some "555"))
                        (schema.reservation.mk 1 1 10000 20000 7))).
  - intros q. reflexivity.
  - vm_compute. by left.
  - reflexivity.
Defined.

(** X11.  The availability query and the insert agree: with a driver that refuses
    nothing, InsertReservation for a stored place and an interval succeeds
    exactly when GetActualPlaces for that interval has an entry of the place
    marked available. *)
Theorem InsertReservation_succeeds_iff_place_available
    (storage : postgres.Storage) (properties : string) (p : schema.place.row)
    (userID : Z) (start finish : pg.Timestamp) :
  postgres.healthy storage ->
  p ∈ schema.place_tbl (postgres.DB storage) ->
  (reservation.InsertReservation storage (schema.place.place_id p) userID
     start finish).2 = None
  <->
  exists ap,
    ap ∈ (reservation.GetActualPlaces storage properties start finish).1 /\
    reservation.ActualPlace.PlaceID ap = schema.place.place_id p /\
    reservation.ActualPlace.IsAvailable ap = true.
Proof.
  intros Hdrv Hp. split.
  - intros Hok.
    destruct (reservation.InsertReservation storage _ _ _ _)
      as [storage' err] eqn:Hcall. simpl in Hok. subst err.
    apply InsertReservation_success in Hcall as [Hfree _].
    exists (reservation.scan_actual (sql.as_available p)).
    split; [|done].
    unfold reservation.GetActualPlaces, postgres.Query. rewrite Hdrv. simpl.
    by apply list_elem_of_fmap_2, free_place_row.
  - intros (ap & Hap & Hid & Havailable).
    unfold reservation.GetActualPlaces, postgres.Query in Hap.
    rewrite Hdrv in Hap. simpl in Hap.
    apply list_elem_of_fmap in Hap as (x & -> & Hx).
    destruct (available_row_free _ _ _ x Hx Havailable)
      as (p' & _ & -> & Hfree).
    change (schema.place.place_id p' = schema.place.place_id p) in Hid.
    rewrite Hid in Hfree.
    by apply InsertReservation_when_free.
Qed.

Lemma InsertReservation_succeeds_iff_place_available_witness :
  (reservation.InsertReservation sample_storage 2 5 12000 16000).2 = None
  <->
  exists ap,
    ap ∈ (reservation.GetActualPlaces sample_storage "" 12000 16000).1 /\
    reservation.ActualPlace.PlaceID ap = 2 /\
    reservation.ActualPlace.IsAvailable ap = true.
Proof.
  apply (InsertReservation_succeeds_iff_place_available sample_storage ""
           (schema.place.mk 2 "B" None) 5 12000 16000).
  - intros q. reflexivity.
  - by left.
Defined.

(* ===================================================================== *)
(** ** More on the handlers *)
(* ===================================================================== *)

(** X12.  The "me" handler on a context that holds all three values, of the
    types it asserts: it never panics and answers 200 or 500; it answers 200
    exactly when the claims hold a user id, the name is not empty and the
    role is not zero, and then the body echoes the three (a user id of zero
    is echoed like any other); a 500 comes with an error envelope. *)
Theorem me_New_200_or_500
    (claims : gmap string Z) (username : string) (role : Z) :
  http.outcome (me.New (full_context claims username role)) = http.Returned /\
  (http.status_code (http.events (me.New (full_context claims username role)))
     = Some 200 \/
   http.status_code (http.events (me.New (full_context claims username role)))
     = Some 500) /\
  (http.status_code (http.events (me.New (full_context claims username role)))
     = Some 200 <->
   is_Some (claims !! "user_id") /\ username <> "" /\ role <> 0) /\
  (forall userID, claims !! "user_id" = Some userID ->
     username <> "" -> role <> 0 ->
     http.body_written
       (http.events (me.New (full_context claims username role))) =
       Some (me.Response resp.OK (me.mkUser userID username role))) /\
  (http.status_code (http.events (me.New (full_context claims username role)))
     = Some 500 ->
   exists msg,
     http.body_written
       (http.events (me.New (full_context claims username role))) =
       Some (http.mkBody (resp.Error msg) [])).
Proof.
  unfold me.New. simpl.
  destruct (claims !! "user_id") as [userID|] eqn:Hid.
  - destruct (decide (username = "")) as [Hname|Hname].
    + simpl. repeat split; try (by right); try done.
      * intros (_ & Hne & _). done.
      * by eexists.
    + destruct (decide (role = 0)) as [Hrole|Hrole].
      * simpl. repeat split; try (by right); try done.
        -- intros (_ & _ & Hne). done.
        -- by eexists.
      * simpl. repeat split; try (by left); try done.
        intros uid [= <-] _ _. reflexivity.
  - simpl. repeat split; try (by right); try done.
    + intros ([uid Huid] & _). done.
    + by eexists.
Qed.

(** X13.  The delete-item handler calls DeleteItem at most once, never for item
    zero, and only for a caller whose role is nonzero and is ShopEditor or
    SuperAdmin, with a body that decoded; in every other run it makes no
    call and hands the storage back as it was. *)
Theorem deleteItem_calls_only_when_allowed
    (ShopEditor SuperAdmin : Z)
    (DeleteItem : postgres.Storage -> Z -> postgres.Storage * error)
    (ctx : Context) (body : http.Decoded deleteItem.Request)
    (storage : postgres.Storage) :
  (http.calls
     (http.events
        (deleteItem.New ShopEditor SuperAdmin DeleteItem ctx body storage).1)
     = [] /\
   (deleteItem.New ShopEditor SuperAdmin DeleteItem ctx body storage).2
     = storage)
  \/
  (exists role req,
     http.as_int (ctx oauth.ScopeContext) = Some role /\ role <> 0 /\
     (role = ShopEditor \/ role = SuperAdmin) /\
     body = http.Filled req /\ deleteItem.ItemID req <> 0 /\
     http.calls
       (http.events
          (deleteItem.New ShopEditor SuperAdmin DeleteItem ctx body storage).1)
       = [http.DeleteItem (deleteItem.ItemID req)] /\
     (deleteItem.New ShopEditor SuperAdmin DeleteItem ctx body storage).2
       = (DeleteItem storage (deleteItem.ItemID req)).1).
Proof.
  destruct (http.as_int (ctx oauth.ScopeContext)) as [role|] eqn:Hrole.
  2: { left. by rewrite deleteItem_no_scope. }
  destruct (decide (role = 0)) as [-> | Hnz].
  { left. by rewrite deleteItem_no_role. }
  destruct (decide (role = ShopEditor \/ role = SuperAdmin))
    as [Hallowed | Hdenied].
  2: { left. rewrite (deleteItem_denied _ _ _ _ _ _ role); [done..| |];
         intros ->; apply Hdenied; tauto. }
  rewrite (deleteItem_allowed _ _ _ _ _ _ role Hrole Hnz Hallowed).
  destruct body as [|err|req]; [by left | by left |].
  destruct (decide (deleteItem.ItemID req = 0)) as [Hzero | Hitem];
    [by left|].
  right. exists role, req.
  by destruct (DeleteItem storage (deleteItem.ItemID req)) as [storage' [e|]].
Qed.

(** X14.  The delete-item handler panics exactly when the context holds no scope
    of type int, before it has written anything; in every other run it
    returns, having written one body under one of the codes 200, 400, 403,
    422 and 500. *)
Theorem deleteItem_panics_or_answers
    (ShopEditor SuperAdmin : Z)
    (DeleteItem : postgres.Storage -> Z -> postgres.Storage * error)
    (ctx : Context) (body : http.Decoded deleteItem.Request)
    (storage : postgres.Storage) :
  (http.as_int (ctx oauth.ScopeContext) = None /\
   (deleteItem.New ShopEditor SuperAdmin DeleteItem ctx body storage).1
     = http.panic)
  \/
  (is_Some (http.as_int (ctx oauth.ScopeContext)) /\
   http.outcome
     (deleteItem.New ShopEditor SuperAdmin DeleteItem ctx body storage).1
     = http.Returned /\
   is_Some
     (http.body_written
        (http.events
           (deleteItem.New ShopEditor SuperAdmin DeleteItem ctx body storage).1))
   /\
   exists code,
     http.status_code
       (http.events
          (deleteItem.New ShopEditor SuperAdmin DeleteItem ctx body storage).1)
       = Some code /\
     code ∈ http_codes).
Proof.
  destruct (http.as_int (ctx oauth.ScopeContext)) as [role|] eqn:Hrole.
  2: { left. by rewrite deleteItem_no_scope. }
  right. split; [by eexists|].
  unfold deleteItem.New. rewrite Hrole.
  destruct (decide (role = 0)).
  { simpl. split; [done|]. split; [by eexists|].
    exists 500. split; [done|]. unfold http_codes. set_solver. }
  destruct (negb _).
  { simpl. split; [done|]. split; [by eexists|].
    exists 403. split; [done|]. unfold http_codes. set_solver. }
  destruct body as [|err|req].
  - simpl. split; [done|]. split; [by eexists|].
    exists 400. split; [done|]. unfold http_codes. set_solver.
  - simpl. split; [done|]. split; [by eexists|].
    exists 400. split; [done|]. unfold http_codes. set_solver.
  - destruct (deleteItem.validate req).
    + destruct (DeleteItem storage (deleteItem.ItemID req))
        as [storage' [e|]]; simpl.
      * split; [done|]. split; [by eexists|].
        exists 422. split; [done|]. unfold http_codes. set_solver.
      * split; [done|]. split; [by eexists|].
        exists 200. split; [done|]. unfold http_codes. set_solver.
    + simpl. split; [done|]. split; [by eexists|].
      exists 400. split; [done|]. unfold http_codes. set_solver.
Qed.

(** X15.  The delete-item handler keeps the error of DeleteItem to itself: two
    entity operations that do the same to the storage and fail on the same
    calls give the same run, events and body included, whatever texts their
    errors carry. *)
Theorem deleteItem_hides_error_text
    (ShopEditor SuperAdmin : Z)
    (D1 D2 : postgres.Storage -> Z -> postgres.Storage * error)
    (ctx : Context) (body : http.Decoded deleteItem.Request)
    (storage : postgres.Storage) :
  same_but_error_text D1 D2 ->
  deleteItem.New ShopEditor SuperAdmin D1 ctx body storage =
  deleteItem.New ShopEditor SuperAdmin D2 ctx body storage.
Proof.
  intros Hsame. unfold deleteItem.New.
  destruct (http.as_int (ctx oauth.ScopeContext)) as [role|]; [|reflexivity].
  destruct (decide (role = 0)); [reflexivity|].
  destruct (negb _); [reflexivity|].
  destruct body as [|err|req]; [reflexivity..|].
  destruct (deleteItem.validate req); [|reflexivity].
  destruct (Hsame storage (deleteItem.ItemID req)) as [Hstorage Herr].
  destruct (D1 storage (deleteItem.ItemID req)) as [s1 [e1|]],
           (D2 storage (deleteItem.ItemID req)) as [s2 [e2|]];
    simpl in *; subst.
  - reflexivity.
  - destruct (proj1 Herr) as [? ?]; [by eexists | done].
  - destruct (proj2 Herr) as [? ?]; [by eexists | done].
  - reflexivity.
Qed.

Lemma deleteItem_hides_error_text_witness :
  deleteItem.New 2 3 DeleteItem_fails (scope_only 2)
    (http.Filled (deleteItem.mkRequest 41)) sample_storage =
  deleteItem.New 2 3 (λ storage _, (storage, Some "pq: deadlock detected"))
    (scope_only 2) (http.Filled (deleteItem.mkRequest 41)) sample_storage.
Proof.
  apply (deleteItem_hides_error_text 2 3 DeleteItem_fails
           (λ storage _, (storage, Some "pq: deadlock detected"))).
  intros storage itemID. split; [reflexivity|].
  split; intros _; by eexists.
Defined.

Section LogInMore.
Import http.
Variable UserAuth : postgres.Storage -> string -> string -> bool * error.
Variable jwt_New : string * error.
Implicit Types (req : logIn.Request) (storage : postgres.Storage)
  (body : Decoded logIn.Request).

(** A body that gives no request with both fields filled in is answered
    400, with nothing on the standard output and no call. *)
Lemma logIn_New_not_validated body storage :
  (forall req, ¬ validated body req) ->
  status_code (events (logIn.New UserAuth jwt_New body storage)) = Some 400 /\
  stdout (events (logIn.New UserAuth jwt_New body storage)) = [] /\
  calls (events (logIn.New UserAuth jwt_New body storage)) = [] /\
  outcome (logIn.New UserAuth jwt_New body storage) = Returned.
Proof.
  intros Hnot. destruct body as [|err|req]; [done | done |].
  unfold logIn.New, logIn.validate.
  destruct (decide (logIn.Login req = "")) as [Hlogin|Hlogin];
    destruct (decide (logIn.Password req = "")) as [Hpassword|Hpassword];
    try done.
  by destruct (Hnot req).
Qed.

(** A request with both fields filled in: the answer follows the status of
    the credential check. *)
Lemma logIn_New_by_status req storage :
  logIn.Login req <> "" -> logIn.Password req <> "" ->
  status_code (events (logIn.New UserAuth jwt_New (Filled req) storage)) =
    Some (if (UserAuth storage (logIn.Login req) (logIn.Password req)).1
          then 200 else 400) /\
  calls (events (logIn.New UserAuth jwt_New (Filled req) storage)) =
    http.UserAuth (logIn.Login req) (logIn.Password req) ::
    (if (UserAuth storage (logIn.Login req) (logIn.Password req)).1
     then [JwtNew] else []) /\
  ((UserAuth storage (logIn.Login req) (logIn.Password req)).1 = true ->
   body_written (events (logIn.New UserAuth jwt_New (Filled req) storage)) =
     Some (logIn.Response resp.OK jwt_New.1)).
Proof.
  intros Hlogin Hpassword. rewrite logIn_New_validated by assumption.
  by destruct (UserAuth storage _ _) as [[|] [text|]].
Qed.

End LogInMore.

(** X16.  The login handler issues a token only after the credential check has
    accepted: jwt.New is called, and the status is 200, exactly when the
    body decodes into a request with login and password filled in and
    UserAuth answers true; the body then carries the issuer's token as it
    is.  Every other run that writes a status writes 400. *)
Theorem logIn_token_only_after_accept
    (UserAuth : postgres.Storage -> string -> string -> bool * error)
    (jwt_New : string * error) (body : http.Decoded logIn.Request)
    (storage : postgres.Storage) :
  (http.JwtNew ∈ http.calls (http.events (logIn.New UserAuth jwt_New body storage))
   <->
   exists req, validated body req /\
     (UserAuth storage (logIn.Login req) (logIn.Password req)).1 = true)
  /\
  (http.status_code (http.events (logIn.New UserAuth jwt_New body storage))
     = Some 200
   <->
   exists req, validated body req /\
     (UserAuth storage (logIn.Login req) (logIn.Password req)).1 = true)
  /\
  (http.status_code (http.events (logIn.New UserAuth jwt_New body storage))
     = Some 200 ->
   http.body_written (http.events (logIn.New UserAuth jwt_New body storage))
     = Some (logIn.Response resp.OK jwt_New.1))
  /\
  (http.status_code (http.events (logIn.New UserAuth jwt_New body storage))
     = Some 200 \/
   http.status_code (http.events (logIn.New UserAuth jwt_New body storage))
     = Some 400).
Proof.
  assert (Hcases : (exists req, validated body req) \/
                   (forall req, ¬ validated body req)).
  { destruct body as [|err|req];
      [right; by intros ? ([=] & _) | right; by intros ? ([=] & _) |].
    destruct (decide (logIn.Login req = "")) as [Hlogin|Hlogin];
      [right; intros ? ([= <-] & ? & _); done|].
    destruct (decide (logIn.Password req = "")) as [Hpassword|Hpassword];
      [right; intros ? ([= <-] & _ & ?); done|].
    left. by exists req. }
  destruct Hcases as [[req (-> & Hlogin & Hpassword)] | Hnone].
  - destruct (logIn_New_by_status UserAuth jwt_New req storage Hlogin Hpassword)
      as (Hstatus & Hcalls & Hbody).
    rewrite Hstatus, Hcalls.
    destruct (UserAuth storage (logIn.Login req) (logIn.Password req)).1
      eqn:Haccept.
    + assert (Hyes : exists req', validated (http.Filled req) req' /\
                (UserAuth storage (logIn.Login req') (logIn.Password req')).1
                = true) by (by exists req).
      split; [split; [done | intros _; by repeat constructor]|].
      split; [done|]. split; [intros _; by apply Hbody | by left].
    + assert (Hno : ¬ exists req', validated (http.Filled req) req' /\
                (UserAuth storage (logIn.Login req') (logIn.Password req')).1
                = true).
      { intros (req' & ([= <-] & _) & Htrue). congruence. }
      split; [split; [|done]|].
      { intros Hin. apply list_elem_of_singleton in Hin. discriminate Hin. }
      split; [split; [discriminate | done]|].
      split; [discriminate | by right].
  - destruct (logIn_New_not_validated UserAuth jwt_New body storage Hnone)
      as (Hstatus & _ & Hcalls & _).
    rewrite Hstatus, Hcalls.
    assert (Hno : ¬ exists req, validated body req /\
              (UserAuth storage (logIn.Login req) (logIn.Password req)).1
              = true).
    { intros (req & Hreq & _). by apply (Hnone req). }
    split; [split; [|done]|].
    { intros Hin. by apply not_elem_of_nil in Hin. }
    split; [split; [discriminate | done]|].
    split; [discriminate | by right].
Qed.

(** X17.  A login request with an empty login or an empty password is answered
    400 with a validation error that names exactly the empty fields, Login
    before Password; the password is not printed and the credential check
    is not called. *)
Theorem logIn_invalid_request_stops_early
    (UserAuth : postgres.Storage -> string -> string -> bool * error)
    (jwt_New : string * error) (req : logIn.Request)
    (storage : postgres.Storage) :
  logIn.Login req = "" \/ logIn.Password req = "" ->
  http.status_code
    (http.events (logIn.New UserAuth jwt_New (http.Filled req) storage))
    = Some 400 /\
  http.body_written
    (http.events (logIn.New UserAuth jwt_New (http.Filled req) storage))
    = Some (http.mkBody
              (resp.ValidationError
                 ((if decide (logIn.Login req = "") then ["Login"] else []) ++
                  (if decide (logIn.Password req = "") then ["Password"]
                   else [])))
              []) /\
  http.stdout
    (http.events (logIn.New UserAuth jwt_New (http.Filled req) storage)) = [] /\
  http.calls
    (http.events (logIn.New UserAuth jwt_New (http.Filled req) storage)) = [].
Proof.
  intros Hempty. unfold logIn.New, logIn.validate.
  destruct (decide (logIn.Login req = "")) as [Hlogin|Hlogin];
    destruct (decide (logIn.Password req = "")) as [Hpassword|Hpassword];
    try done.
  by destruct Hempty.
Qed.

Lemma logIn_invalid_request_stops_early_witness :
  http.body_written
    (http.events
       (logIn.New UserAuth_accepts ("token", None)
          (http.Filled (logIn.mkRequest "alice" "")) sample_storage))
    = Some (http.mkBody (resp.ValidationError ["Password"]) []) /\
  http.stdout
    (http.events
       (logIn.New UserAuth_accepts ("token", None)
          (http.Filled (logIn.mkRequest "alice" "")) sample_storage)) = [].
Proof.
  destruct (logIn_invalid_request_stops_early UserAuth_accepts ("token", None)
              (logIn.mkRequest "alice" "") sample_storage)
    as (_ & Hbody & Hstdout & _); [by right|].
  split; [exact Hbody | exact Hstdout].
Defined.

(** X18.  The reservation-list handler never panics.  When GetActualPlaceList
    reports an error it answers 422 with a fixed message, and neither the
    error text nor the text that came with it reaches the run; when it
    reports none it answers 200 with the list as it is. *)
Theorem get_reservation_list_answer
    (GetActualPlaceList : postgres.Storage -> string * error)
    (storage : postgres.Storage) :
  http.outcome (get_reservation_list.New GetActualPlaceList storage)
    = http.Returned /\
  (is_Some (GetActualPlaceList storage).2 ->
   get_reservation_list.New GetActualPlaceList storage =
     get_reservation_list.New (λ _, ("", Some "")) storage /\
   http.status_code
     (http.events (get_reservation_list.New GetActualPlaceList storage))
     = Some 422 /\
   http.body_written
     (http.events (get_reservation_list.New GetActualPlaceList storage))
     = Some (http.mkBody (resp.Error "failed to get shop list") []))
  /\
  ((GetActualPlaceList storage).2 = None ->
   http.status_code
     (http.events (get_reservation_list.New GetActualPlaceList storage))
     = Some 200 /\
   http.body_written
     (http.events (get_reservation_list.New GetActualPlaceList storage))
     = Some (get_reservation_list.Response resp.OK
               (GetActualPlaceList storage).1)).
Proof.
  unfold get_reservation_list.New.
  destruct (GetActualPlaceList storage) as [placeList [err|]]; simpl.
  - split; [done|]. split; [done|]. by intros [=].
  - split; [done|]. split; [|done]. by intros [? [=]].
Qed.
